(** * Porkbun domain client: a shallow embedding and its properties

    The development follows the layout of the Python package:

    - [Json]: the values [response.json()] yields and the dict operations
      the client uses on them ([dict.get], [dict.update], [in], [d[k]]);
    - [Models]: the records of [models.py] together with the validation
      pydantic performs when a response model is built from a dict;
    - [Client]: [PorkbunDomainClient] of [client.py], written in a small
      state-and-exception monad over an explicit world (the client's
      [_client] attribute, the handles created and released, and the trace
      of remote calls and sleeps);
    - [Tools]: the five tools of [tools/domain_tools.py].

    A logger's output is not part of the world; a logging call counts for
    what it does to the control flow (see [log_fields]). *)

From Stdlib Require Import ZArith QArith Qpower List String Ascii Bool Lia DecimalString.
Import ListNotations.

#[local] Open Scope string_scope.
#[local] Open Scope Z_scope.

(** ** JSON values *)

(** What [json.loads] builds: [None], [bool], [int], [float], [str], [list]
    and [dict] with string keys.  A dict is kept as the list of its items in
    insertion order; a Python dict has distinct keys, and every operation
    below reads the first binding of a key.  No client operation inspects a
    float, so a float is kept as its literal. *)
#[warnings="-register-all"]
Inductive json : Type :=
| JNull
| JBool (b : bool)
| JInt (n : Z)
| JFloat (literal : string)
| JStr (s : string)
| JList (items : list json)
| JDict (items : list (string * json)).

Definition dict := list (string * json).

Module Json.

(** [type(v).__name__], as it appears in Python's [AttributeError] text. *)
Definition type_name (v : json) : string :=
  match v with
  | JNull => "NoneType"
  | JBool _ => "bool"
  | JInt _ => "int"
  | JFloat _ => "float"
  | JStr _ => "str"
  | JList _ => "list"
  | JDict _ => "dict"
  end.

(** The text of [AttributeError] for [v.attr] on a value without [attr]. *)
Definition no_attribute (v : json) (attr : string) : string :=
  "'" ++ type_name v ++ "' object has no attribute '" ++ attr ++ "'".

(** [d[k]] when present. *)
Fixpoint lookup {A : Type} (k : string) (d : list (string * A)) : option A :=
  match d with
  | [] => None
  | (k', v) :: rest => if String.eqb k' k then Some v else lookup k rest
  end.

(** [k in d]. *)
Definition mem {A : Type} (k : string) (d : list (string * A)) : bool :=
  match lookup k d with Some _ => true | None => false end.

(** [d.get(k, default)]. *)
Definition get (d : dict) (k : string) (default : json) : json :=
  match lookup k d with Some v => v | None => default end.

(** [d[k] = v]: an existing key keeps its position, a new key goes last. *)
Fixpoint set (k : string) (v : json) (d : dict) : dict :=
  match d with
  | [] => [(k, v)]
  | (k', v') :: rest =>
      if String.eqb k' k then (k', v) :: rest else (k', v') :: set k v rest
  end.

(** [d.update(other)]. *)
Definition update (d other : dict) : dict :=
  fold_left (fun acc kv => set (fst kv) (snd kv) acc) other d.

(** [str(n)] for an [int]. *)
Definition str_of_Z (n : Z) : string := NilZero.string_of_int (Z.to_int n).

(** [str(len(xs))]. *)
Definition str_of_len {A : Type} (xs : list A) : string :=
  str_of_Z (Z.of_nat (List.length xs)).

End Json.

(** ** HTTP responses and the outcome of a remote call *)

(** The parts of an [httpx.Response] the client reads.  [json_body] is the
    result of [response.json()]: the decoded value, or the text of the
    [JSONDecodeError] it raises. *)
Record Response : Type := mkResponse {
  status_code : Z;
  text : string;
  json_body : string + json
}.

(** [Response.is_success]: a 2xx status. *)
Definition is_success (r : Response) : bool :=
  (200 <=? status_code r) && (status_code r <=? 299).

(** A call sent to the registrar. *)
Record Request : Type := mkRequest {
  method : string;
  endpoint : string;
  payload : dict
}.

(** What [client.request] does with a call on an open handle: it raises
    [httpx.RequestError] (connection, DNS, timeout; [error_text] is
    [str(e)]) or it returns a response. *)
Inductive Outcome : Type :=
| Failed (error_text : string)
| Answered (r : Response).

(** ** Library functions outside the repository

    Functions of Python and of its libraries whose tables or texts are not
    part of the repository.  Everything below holds for every
    implementation of this interface. *)
Class PyLib : Type := {
  (** [str.upper] *)
  upper : string -> string;
  (** [repr] of a float, a string, a list or a dict *)
  py_repr : json -> string;
  (** pydantic's coercion to [bool] of a value that is neither [None] nor a
      [bool] ([None] here: the value is rejected) *)
  lax_bool : json -> option bool;
  (** [str(e)] of the [HTTPStatusError] that [raise_for_status] builds *)
  status_error_text : Response -> string;
  (** [str(e)] of the [ValidationError] of a model on an input *)
  validation_text : string -> json -> string;
  (** [ONEIRIC_LOGGING_AVAILABLE] of [config.py]: whether oneiric's
      structured logger, which takes keyword fields, could be imported;
      without it [get_logger_instance] returns a logger of Python's
      [logging] *)
  structured_logging : bool
}.

(** ** Exceptions *)

(** The exception classes the client code raises or lets through; all are
    subclasses of [Exception].  [PorkbunError] has the three attributes
    its [__init__] stores; [message] is whatever the call site passes (the
    remote message is not checked to be a string). *)
Inductive exn : Type :=
| PorkbunError (message : json) (status : option Z) (details : dict)
| HTTPStatusError (error_text : string) (response : Response)
| RequestError (error_text : string)
| JSONDecodeError (error_text : string)
| AttributeError (error_text : string)
| ValidationError (error_text : string)
| KeyError (key : string)
| RuntimeError (error_text : string)
| TypeError (error_text : string).

(** [PorkbunError.__init__]: [self.details = details or {}]. *)
Definition mkPorkbunError (message : json) (status : option Z)
    (details : option dict) : exn :=
  PorkbunError message status
    (match details with Some d => d | None => [] end).

Section Str.
Context {lib : PyLib}.

(** [str(v)] of a JSON value. *)
Definition py_str (v : json) : string :=
  match v with
  | JStr s => s
  | JNull => "None"
  | JBool true => "True"
  | JBool false => "False"
  | JInt n => Json.str_of_Z n
  | _ => py_repr v
  end.

(** [str(e)]: [PorkbunError] passes [message] to [Exception.__init__], so
    its text is [str(message)]. *)
Definition exn_str (e : exn) : string :=
  match e with
  | PorkbunError m _ _ => py_str m
  | HTTPStatusError t _ => t
  | RequestError t => t
  | JSONDecodeError t => t
  | AttributeError t => t
  | ValidationError t => t
  | KeyError k => py_repr (JStr k)
  | RuntimeError t => t
  | TypeError t => t
  end.

End Str.

(** ** Models ([models.py]) *)

Module Domain.
Record t : Type := mk {
  domain : string;
  status : string;
  tld : string;
  create_date : option string;
  expire_date : option string;
  whois_privacy : option string;
  auto_renew : option bool;
  not_local : option bool
}.
End Domain.

Module PricingInfo.
Record t : Type := mk {
  tld : string;
  registration : option string;
  renewal : option string;
  transfer : option string
}.
End PricingInfo.

Module DomainsResponse.
Record t : Type := mk {
  status : string;
  message : option string;
  domains : list Domain.t
}.
End DomainsResponse.

Module PricingResponse.
Record t : Type := mk {
  status : string;
  message : option string;
  pricing : list (string * PricingInfo.t)
}.
End PricingResponse.

Module AuthCodeResponse.
Record t : Type := mk {
  status : string;
  message : option string;
  auth_code : option string
}.
End AuthCodeResponse.

(** *** Validation

    Building a model from the items of a dict that came from JSON, for
    models in pydantic's default configuration: keys that are not fields are ignored, a missing
    field takes its default or is an error when it has none, a [str] field
    takes a string only, [T | None] takes [None] or what [T] takes, a
    [list[T]] field takes a list and a [dict[str, T]] field a dict, element
    by element.  [None] as a result stands for [ValidationError]. *)
Module Validate.
Section Fields.
Context {lib : PyLib}.

Definition bind_opt {A B : Type} (o : option A) (k : A -> option B) : option B :=
  match o with Some a => k a | None => None end.

#[local] Notation "x <-? c ; k" := (bind_opt c (fun x => k))
  (at level 61, c at next level, right associativity).

(** every element, or the first failure *)
Fixpoint traverse {A B : Type} (f : A -> option B) (xs : list A) : option (list B) :=
  match xs with
  | [] => Some []
  | x :: rest =>
      y <-? f x ; ys <-? traverse f rest ; Some (y :: ys)
  end.

(** a required field [k: str] *)
Definition str_field (k : string) (d : dict) : option string :=
  match Json.lookup k d with
  | Some (JStr s) => Some s
  | _ => None
  end.

(** a field [k: str | None = None] *)
Definition opt_str_field (k : string) (d : dict) : option (option string) :=
  match Json.lookup k d with
  | None | Some JNull => Some None
  | Some (JStr s) => Some (Some s)
  | Some _ => None
  end.

(** a field [k: bool | None = None] *)
Definition opt_bool_field (k : string) (d : dict) : option (option bool) :=
  match Json.lookup k d with
  | None | Some JNull => Some None
  | Some (JBool b) => Some (Some b)
  | Some v => option_map Some (lax_bool v)
  end.

Definition Domain (v : json) : option Domain.t :=
  match v with
  | JDict d =>
      domain <-? str_field "domain" d ;
      status <-? str_field "status" d ;
      tld <-? str_field "tld" d ;
      create_date <-? opt_str_field "create_date" d ;
      expire_date <-? opt_str_field "expire_date" d ;
      whois_privacy <-? opt_str_field "whois_privacy" d ;
      auto_renew <-? opt_bool_field "auto_renew" d ;
      not_local <-? opt_bool_field "not_local" d ;
      Some (Domain.mk domain status tld create_date expire_date
              whois_privacy auto_renew not_local)
  | _ => None
  end.

Definition PricingInfo (v : json) : option PricingInfo.t :=
  match v with
  | JDict d =>
      tld <-? str_field "tld" d ;
      registration <-? opt_str_field "registration" d ;
      renewal <-? opt_str_field "renewal" d ;
      transfer <-? opt_str_field "transfer" d ;
      Some (PricingInfo.mk tld registration renewal transfer)
  | _ => None
  end.

Definition DomainsResponse (data : dict) : option DomainsResponse.t :=
  status <-? str_field "status" data ;
  message <-? opt_str_field "message" data ;
  domains <-? match Json.lookup "domains" data with
              | None => Some []
              | Some (JList xs) => traverse Domain xs
              | Some _ => None
              end ;
  Some (DomainsResponse.mk status message domains).

Definition PricingResponse (data : dict) : option PricingResponse.t :=
  status <-? str_field "status" data ;
  message <-? opt_str_field "message" data ;
  pricing <-? match Json.lookup "pricing" data with
              | None => Some []
              | Some (JDict kvs) =>
                  traverse (fun kv => p <-? PricingInfo (snd kv) ; Some (fst kv, p)) kvs
              | Some _ => None
              end ;
  Some (PricingResponse.mk status message pricing).

Definition AuthCodeResponse (data : dict) : option AuthCodeResponse.t :=
  status <-? str_field "status" data ;
  message <-? opt_str_field "message" data ;
  auth_code <-? opt_str_field "auth_code" data ;
  Some (AuthCodeResponse.mk status message auth_code).

End Fields.
End Validate.

(** ** Settings ([config.py]) *)

(** The fields of [PorkbunDomainSettings] the client reads. *)
Record PorkbunDomainSettings : Type := mkSettings {
  api_key : string;
  secret_key : string;
  max_retries : Z
}.

(** [max_retries: int = Field(default=3, ge=0, le=5)]: the bounds pydantic
    enforces when the settings are built. *)
Definition valid_settings (s : PorkbunDomainSettings) : Prop :=
  0 <= max_retries s <= 5.

Definition auth_payload (s : PorkbunDomainSettings) : dict :=
  [("apikey", JStr (api_key s)); ("secretapikey", JStr (secret_key s))].

(** ** The world the client runs in *)

(** What the client does that can be observed from outside, in order: a
    call sent through a handle, or a suspension of [seconds]. *)
Inductive Event : Type :=
| Call (handle : nat) (req : Request)
| Sleep (seconds : Q).

Definition is_call (e : Event) : bool :=
  match e with Call _ _ => true | Sleep _ => false end.

(** the number of remote calls in a trace *)
Definition calls (tr : list Event) : nat := List.length (filter is_call tr).

(** the suspensions of a trace, in order *)
Definition sleeps (tr : list Event) : list Q :=
  flat_map (fun e => match e with Sleep q => [q] | Call _ _ => [] end) tr.

(** [_client] is the attribute of [PorkbunDomainClient]: [None] or an
    [httpx.AsyncClient], named by the number of clients built before it.
    [released] lists the handles on which [aclose()] has run. *)
Record World : Type := mkWorld {
  _client : option nat;
  created : nat;
  released : list nat;
  trace : list Event
}.

(** A client as [__init__] leaves it. *)
Definition new_world : World := mkWorld None 0 [] [].

(** The handles of a world are consistent: every released handle was
    created, and the current handle was created and is not released. *)
Definition wf (w : World) : bool :=
  forallb (fun h => Nat.ltb h (created w)) (released w) &&
  match _client w with
  | Some h => Nat.ltb h (created w) && negb (existsb (Nat.eqb h) (released w))
  | None => true
  end.

(** [w] after one more event. *)
Definition record (e : Event) (w : World) : World :=
  mkWorld (_client w) (created w) (released w) (trace w ++ [e]).

(** ** Computations: state and exceptions *)

Inductive Result (A : Type) : Type :=
| Return (a : A)
| Raise (e : exn).
Arguments Return {A} a.
Arguments Raise {A} e.

Definition M (A : Type) : Type := World -> Result A * World.

Definition ret {A : Type} (a : A) : M A := fun w => (Return a, w).

Definition raise {A : Type} (e : exn) : M A := fun w => (Raise e, w).

Definition bind {A B : Type} (c : M A) (k : A -> M B) : M B :=
  fun w =>
    match c w with
    | (Return a, w1) => k a w1
    | (Raise e, w1) => (Raise e, w1)
    end.

Notation "x <- c ;; k" := (bind c (fun x => k))
  (at level 61, c at next level, right associativity).
Notation "c ;;; k" := (bind c (fun _ => k))
  (at level 61, right associativity).

(** [try: body / except ...: handler]: [handler e] is [None] when no
    [except] clause matches [e]. *)
Definition try_except {A : Type} (body : M A) (handler : exn -> option (M A)) : M A :=
  fun w =>
    match body w with
    | (Return a, w1) => (Return a, w1)
    | (Raise e, w1) =>
        match handler e with
        | Some h => h w1
        | None => (Raise e, w1)
        end
    end.

(** [range(n)] *)
Definition range (n : Z) : list Z := map Z.of_nat (seq 0 (Z.to_nat n)).

(** [0.5 * (2**attempt)], in seconds.  With [attempt] within the bounds of
    [valid_settings] the float product is exact, so the rational is the
    value slept. *)
Definition backoff (attempt : Z) : Q := (1 # 2) * inject_Z (2 ^ attempt).

(** ** Logging ([config.py]) *)

Section Logging.
Context {lib : PyLib}.

(** [logger.warning(msg, **fields)] and [logger.error(msg, **fields)] on
    the logger [get_logger_instance] returned.  The structured logger takes
    the fields.  A [logging.Logger] hands them on to its [_log] method,
    which has no such parameters, so the call raises [TypeError] on the
    first field.  Calls of [logger.debug] and [logger.info] are not
    modelled: at the level a logger has when logging is not configured
    they return before they hand anything on. *)
Definition log_fields (fields : list string) : M unit :=
  match fields with
  | [] => ret tt
  | first :: _ =>
      if structured_logging then ret tt
      else raise (TypeError ("Logger._log() got an unexpected keyword argument '"
                             ++ first ++ "'"))
  end.

Definition logger_warning (fields : list string) : M unit := log_fields fields.

Definition logger_error (fields : list string) : M unit := log_fields fields.

End Logging.

(** ** The client ([client.py]) *)

Section Client.
Context {lib : PyLib}.
Variable settings : PorkbunDomainSettings.
(** The registrar: what the [n]-th call of the run, counted from 0, meets. *)
Variable remote : nat -> Request -> Outcome.

Definition closed_text : string :=
  "Cannot send a request, as the client has been closed.".

Definition _ensure_client : M nat := fun w =>
  match _client w with
  | None =>
      let h := created w in
      (Return h, mkWorld (Some h) (S h) (released w) (trace w))
  | Some h => (Return h, w)
  end.

Definition close : M unit := fun w =>
  match _client w with
  | Some h => (Return tt, mkWorld None (created w) (h :: released w) (trace w))
  | None => (Return tt, w)
  end.

(** [__aenter__] and [__aexit__] *)
Definition __aenter__ : M unit := _ensure_client ;;; ret tt.
Definition __aexit__ : M unit := close.

(** [await client.request(method, endpoint, json=payload)] on handle [h];
    httpx refuses a closed client with a [RuntimeError]. *)
Definition client_request (h : nat) (req : Request) : M Response := fun w =>
  if existsb (Nat.eqb h) (released w) then (Raise (RuntimeError closed_text), w)
  else
    match remote (calls (trace w)) req with
    | Failed t => (Raise (RequestError t), record (Call h req) w)
    | Answered r => (Return r, record (Call h req) w)
    end.

(** [await asyncio.sleep(seconds)] *)
Definition sleep (seconds : Q) : M unit := fun w =>
  (Return tt, record (Sleep seconds) w).

(** [response.raise_for_status()] *)
Definition raise_for_status (r : Response) : M unit :=
  if is_success r then ret tt
  else raise (HTTPStatusError (status_error_text r) r).

(** [response.json()] *)
Definition response_json (r : Response) : M json :=
  match json_body r with
  | inr v => ret v
  | inl t => raise (JSONDecodeError t)
  end.

(** [v.upper()] *)
Definition str_upper (v : json) : M string :=
  match v with
  | JStr s => ret (upper s)
  | _ => raise (AttributeError (Json.no_attribute v "upper"))
  end.

(** The body of the [try] in [_request]: one attempt. *)
Definition attempt_once (h : nat) (req : Request) : M dict :=
  response <- client_request h req ;;
  raise_for_status response ;;;
  data <- response_json response ;;
  match data with
  | JDict d =>
      status <- str_upper (Json.get d "status" (JStr "")) ;;
      if negb (String.eqb status "SUCCESS") then
        raise (mkPorkbunError (Json.get d "message" (JStr "Unknown API error"))
                 (Some (status_code response)) (Some d))
      else ret d
  | _ => raise (AttributeError (Json.no_attribute data "get"))
  end.

(** The two [except] clauses of [_request] at a given [attempt]; [continue]
    is the rest of the loop. *)
Definition on_failure (attempt : Z) (continue : M dict) (e : exn) : option (M dict) :=
  match e with
  | HTTPStatusError _ r =>
      Some (logger_warning ["endpoint"; "status_code"; "attempt"] ;;;
            if attempt <? max_retries settings then
              sleep (backoff attempt) ;;; continue
            else
              raise (mkPorkbunError
                       (JStr ("HTTP " ++ Json.str_of_Z (status_code r) ++ ": " ++ text r))
                       (Some (status_code r)) None))
  | RequestError t =>
      Some (logger_warning ["endpoint"; "error"; "attempt"] ;;;
            if attempt <? max_retries settings then
              sleep (backoff attempt) ;;; continue
            else
              raise (mkPorkbunError (JStr ("Request failed: " ++ t)) None None))
  | _ => None
  end.

(** [for attempt in attempts: try: ... except ...], then the [raise] that
    follows the loop. *)
Fixpoint retry_loop (h : nat) (req : Request) (attempts : list Z) : M dict :=
  match attempts with
  | [] =>
      raise (mkPorkbunError
               (JStr ("Request failed after " ++ Json.str_of_Z (max_retries settings)
                      ++ " retries"))
               None None)
  | attempt :: rest =>
      try_except (attempt_once h req)
        (on_failure attempt (retry_loop h req rest))
  end.

(** The body sent: the auth payload, updated with a payload that is
    neither [None] nor empty. *)
Definition full_payload (payload : option dict) : dict :=
  match payload with
  | Some ((_ :: _) as p) => Json.update (auth_payload settings) p
  | _ => auth_payload settings
  end.

Definition _request (method endpoint : string) (payload : option dict) : M dict :=
  client <- _ensure_client ;;
  retry_loop client (mkRequest method endpoint (full_payload payload))
    (range (max_retries settings + 1)).

(** *** Domain operations *)

(** Building a response model from [data]; a rejected input raises
    pydantic's [ValidationError]. *)
Definition validated {A : Type} (model : string) (v : dict -> option A) (data : dict) : M A :=
  match v data with
  | Some a => ret a
  | None => raise (ValidationError (validation_text model (JDict data)))
  end.

Definition list_domains : M (list Domain.t) :=
  data <- _request "POST" "/domain/list/all" None ;;
  response <- validated "DomainsResponse" Validate.DomainsResponse data ;;
  ret (DomainsResponse.domains response).

(** [for d in domains: if d.domain == domain: return d] *)
Fixpoint scan (domain : string) (domains : list Domain.t) : option Domain.t :=
  match domains with
  | [] => None
  | d :: rest =>
      if String.eqb (Domain.domain d) domain then Some d else scan domain rest
  end.

Definition not_found (domain : string) : exn :=
  mkPorkbunError (JStr ("Domain " ++ domain ++ " not found in account")) (Some 404) None.

Definition get_domain_info (domain : string) : M Domain.t :=
  domains <- list_domains ;;
  match scan domain domains with
  | Some d => ret d
  | None => raise (not_found domain)
  end.

(** [x or ""] for [x: str | None] *)
Definition or_empty (x : option string) : string :=
  match x with
  | Some ((String _ _) as s) => s
  | _ => ""
  end.

Definition get_auth_code (domain : string) : M string :=
  data <- _request "POST" ("/domain/getAuthCode/" ++ domain) None ;;
  response <- validated "AuthCodeResponse" Validate.AuthCodeResponse data ;;
  ret (or_empty (AuthCodeResponse.auth_code response)).

Definition renew_domain (domain : string) (years : Z) : M dict :=
  let payload := [("years", JInt years)] in
  data <- _request "POST" ("/domain/renew/" ++ domain) (Some payload) ;;
  ret [("domain", JStr domain);
       ("years", JInt years);
       ("success", JBool true);
       ("message", Json.get data "message" (JStr "Domain renewed successfully"))].

(** [if tld:] holds for a string that is neither [None] nor empty. *)
Definition truthy (tld : option string) : bool :=
  match tld with
  | Some (String _ _) => true
  | _ => false
  end.

Definition get_pricing (tld : option string) : M (list (string * PricingInfo.t)) :=
  client <- _ensure_client ;;
  response <- client_request client (mkRequest "POST" "/pricing/get" (auth_payload settings)) ;;
  raise_for_status response ;;;
  data <- response_json response ;;
  match data with
  | JDict d =>
      status <- str_upper (Json.get d "status" (JStr "")) ;;
      if negb (String.eqb status "SUCCESS") then
        raise (mkPorkbunError (Json.get d "message" (JStr "Failed to get pricing"))
                 None None)
      else
        pricing_response <- validated "PricingResponse" Validate.PricingResponse d ;;
        let pricing := PricingResponse.pricing pricing_response in
        match tld with
        | Some t =>
            if truthy tld then
              if Json.mem t pricing then
                match Json.lookup t pricing with
                | Some entry => ret [(t, entry)]
                | None => raise (KeyError t)
                end
              else ret []
            else ret pricing
        | None => ret pricing
        end
  | _ => raise (AttributeError (Json.no_attribute data "get"))
  end.

End Client.

(** ** The tools ([tools/domain_tools.py]) *)

Record ToolResponse : Type := mkToolResponse {
  success : bool;
  message : string;
  data : option dict;
  error : option string;
  next_steps : option (list string)
}.

Definition json_of_opt_str (x : option string) : json :=
  match x with Some s => JStr s | None => JNull end.

Definition json_of_opt_bool (x : option bool) : json :=
  match x with Some b => JBool b | None => JNull end.

Definition _domain_to_dict (domain : Domain.t) : dict :=
  [("domain", JStr (Domain.domain domain));
   ("status", JStr (Domain.status domain));
   ("tld", JStr (Domain.tld domain));
   ("create_date", json_of_opt_str (Domain.create_date domain));
   ("expire_date", json_of_opt_str (Domain.expire_date domain));
   ("whois_privacy", json_of_opt_str (Domain.whois_privacy domain));
   ("auto_renew", json_of_opt_bool (Domain.auto_renew domain));
   ("not_local", json_of_opt_bool (Domain.not_local domain))].

Definition _pricing_to_dict (pricing : PricingInfo.t) : dict :=
  [("tld", JStr (PricingInfo.tld pricing));
   ("registration", json_of_opt_str (PricingInfo.registration pricing));
   ("renewal", json_of_opt_str (PricingInfo.renewal pricing));
   ("transfer", json_of_opt_str (PricingInfo.transfer pricing))].

(** The calls an agent can make: the five functions that
    [register_domain_tools] registers, with their arguments. *)
Inductive ToolCall : Type :=
| ListDomains
| GetDomainInfo (domain : string)
| GetAuthCode (domain : string)
| RenewDomain (domain : string) (years : Z)
| GetPricing (tld : option string).

Module Tools.
Section Tools.
Context {lib : PyLib}.
Variable settings : PorkbunDomainSettings.
Variable remote : nat -> Request -> Outcome.

(** [except Exception as e: logger.error(..., **fields); return
    ToolResponse(success=False, ...)] *)
Definition failure (fields : list string) (message : string)
    (next_steps : list string) (e : exn) : option (M ToolResponse) :=
  Some (logger_error fields ;;;
        ret (mkToolResponse false message None (Some (exn_str e)) (Some next_steps))).

Definition list_domains : M ToolResponse :=
  try_except
    (domains <- list_domains settings remote ;;
     ret (mkToolResponse true
            ("Found " ++ Json.str_of_len domains ++ " domains in your account")
            (Some [("domains", JList (map (fun d => JDict (_domain_to_dict d)) domains));
                   ("count", JInt (Z.of_nat (List.length domains)))])
            None
            (Some ["Use get_domain_info for details on a specific domain";
                   "Use get_pricing to check renewal costs";
                   "Use renew_domain to extend registration"])))
    (failure ["error"] "Failed to list domains"
       ["Verify your API credentials are valid";
        "Check network connectivity"]).

Definition get_domain_info (domain : string) : M ToolResponse :=
  try_except
    (d <- get_domain_info settings remote domain ;;
     ret (mkToolResponse true
            ("Retrieved information for " ++ domain)
            (Some [("domain", JDict (_domain_to_dict d))])
            None
            (Some ["Use get_auth_code to get transfer authorization";
                   "Use renew_domain to extend registration"])))
    (failure ["domain"; "error"] ("Failed to get info for " ++ domain)
       ["Verify the domain name is correct";
        "Ensure the domain is in your account";
        "Use list_domains to see all your domains"]).

Definition get_auth_code (domain : string) : M ToolResponse :=
  try_except
    (auth_code <- get_auth_code settings remote domain ;;
     ret (mkToolResponse true
            ("Retrieved auth code for " ++ domain)
            (Some [("domain", JStr domain); ("auth_code", JStr auth_code)])
            None
            (Some ["Provide this code to the gaining registrar";
                   "Unlock the domain at Porkbun before transfer";
                   "Verify the admin email is correct for transfer approval"])))
    (failure ["domain"; "error"] ("Failed to get auth code for " ++ domain)
       ["Verify the domain is in your account";
        "Check if the domain is eligible for transfer"]).

Definition renew_domain (domain : string) (years : Z) : M ToolResponse :=
  try_except
    (result <- renew_domain settings remote domain years ;;
     ret (mkToolResponse true
            ("Renewed " ++ domain ++ " for " ++ Json.str_of_Z years ++ " year(s)")
            (Some result)
            None
            (Some ["Check the new expiration date";
                   "Verify auto-renew is configured if desired"])))
    (failure ["domain"; "error"] ("Failed to renew " ++ domain)
       ["Verify the domain is in your account";
        "Check if the domain is eligible for renewal";
        "Ensure you have sufficient account balance"]).

Definition get_pricing (tld : option string) : M ToolResponse :=
  try_except
    (pricing <- get_pricing settings remote tld ;;
     let pricing_list :=
       map (fun tp => JDict (Json.update [("tld", JStr (fst tp))] (_pricing_to_dict (snd tp))))
         pricing in
     ret (mkToolResponse true
            ("Retrieved pricing for " ++ Json.str_of_len pricing_list ++ " TLD(s)")
            (Some [("pricing", JList pricing_list);
                   ("count", JInt (Z.of_nat (List.length pricing_list)))])
            None
            (Some ["Compare prices across TLDs";
                   "Use this info to plan domain registrations"])))
    (failure ["error"] "Failed to get pricing information"
       ["Try again later";
        "Check network connectivity"]).

(** A tool call, dispatched by name as the application does. *)
Definition call (c : ToolCall) : M ToolResponse :=
  match c with
  | ListDomains => list_domains
  | GetDomainInfo domain => get_domain_info domain
  | GetAuthCode domain => get_auth_code domain
  | RenewDomain domain years => renew_domain domain years
  | GetPricing tld => get_pricing tld
  end.

End Tools.
End Tools.

(** ** A library instance for running the model

    The examples below run the client on ASCII text: [upper] maps the
    letters a-z to A-Z, the coercion to [bool] takes 0 and 1, and the
    texts of library exceptions are fixed strings.  [ascii_lib] has the
    structured logger, [fallback_lib] the logger of [logging]. *)

Definition ascii_upper_char (c : ascii) : ascii :=
  let n := nat_of_ascii c in
  if (Nat.leb 97 n && Nat.leb n 122)%bool then ascii_of_nat (n - 32) else c.

Fixpoint ascii_upper (s : string) : string :=
  match s with
  | EmptyString => EmptyString
  | String c rest => String (ascii_upper_char c) (ascii_upper rest)
  end.

Definition ascii_lib : PyLib := {|
  upper := ascii_upper;
  py_repr := fun v => match v with JFloat l => l | JStr s => "'" ++ s ++ "'" | _ => "..." end;
  lax_bool := fun v => match v with JInt 0 => Some false | JInt 1 => Some true | _ => None end;
  status_error_text := fun r => "HTTP status " ++ Json.str_of_Z (status_code r);
  validation_text := fun model _ => "validation error for " ++ model;
  structured_logging := true
|}.

Definition fallback_lib : PyLib := {|
  upper := ascii_upper;
  py_repr := @py_repr ascii_lib;
  lax_bool := @lax_bool ascii_lib;
  status_error_text := @status_error_text ascii_lib;
  validation_text := @validation_text ascii_lib;
  structured_logging := false
|}.

Definition default_settings : PorkbunDomainSettings :=
  mkSettings "pk1_key" "sk1_secret" 3.

(** a 200 response carrying the JSON value [v] *)
Definition ok_json (v : json) : Response := mkResponse 200 "" (inr v).

(** *** Registrars for the examples *)

(** A registrar that is down: calls time out and answer 503 in turn. *)
Definition remote_down : nat -> Request -> Outcome :=
  fun n _ =>
    if Nat.even n then Failed "timed out"
    else Answered (mkResponse 503 "busy" (inl "Expecting value")).

(** A registrar that answers every call with status 200 and [body]. *)
Definition remote_answers (body : json) : nat -> Request -> Outcome :=
  fun _ _ => Answered (ok_json body).

Definition error_envelope (message : string) : json :=
  JDict [("status", JStr "ERROR"); ("message", JStr message)].

Definition example_com : Domain.t :=
  Domain.mk "example.com" "ACTIVE" "com" (Some "2020-01-01") None None (Some true) None.

Definition example_net : Domain.t :=
  Domain.mk "example.net" "ACTIVE" "net" None None None None None.

Definition domains_envelope : json :=
  JDict [("status", JStr "SUCCESS");
         ("domains",
          JList [JDict [("domain", JStr "example.net"); ("status", JStr "ACTIVE");
                        ("tld", JStr "net")];
                 JDict [("domain", JStr "example.com"); ("status", JStr "ACTIVE");
                        ("tld", JStr "com"); ("create_date", JStr "2020-01-01");
                        ("auto_renew", JBool true)]])].

Definition com_pricing : PricingInfo.t :=
  PricingInfo.mk "com" (Some "9.68") (Some "10.18") None.

Definition net_pricing : PricingInfo.t :=
  PricingInfo.mk "net" None None None.

Definition pricing_envelope : json :=
  JDict [("status", JStr "SUCCESS");
         ("pricing",
          JDict [("com", JDict [("tld", JStr "com"); ("registration", JStr "9.68");
                                ("renewal", JStr "10.18")]);
                 ("net", JDict [("tld", JStr "net")])])].

Definition auth_code_envelope : dict :=
  [("status", JStr "success"); ("auth_code", JStr "EPP-1234")].

Definition renewed_envelope : dict :=
  [("status", JStr "SUCCESS"); ("message", JStr "Renewed until 2030")].

(** A world in which one handle has been opened and closed and another is
    in use. *)
Definition busy_world : World := mkWorld (Some 1%nat) 2 [0%nat] [].


(** ** Vocabulary of the statements *)

(** The handle [_ensure_client] hands out in [w]: the current one, or the
    next to be built. *)
Definition handle_of (w : World) : nat :=
  match _client w with Some h => h | None => created w end.

(** [w] once [_ensure_client] has run. *)
Definition ensured (w : World) : World :=
  match _client w with
  | Some _ => w
  | None => mkWorld (Some (created w)) (S (created w)) (released w) (trace w)
  end.

(** [w] with its trace extended by [events]. *)
Definition extend (w : World) (events : list Event) : World :=
  mkWorld (_client w) (created w) (released w) (trace w ++ events).

(** handle [h] has not been released in [w] *)
Definition open_in (h : nat) (w : World) : Prop :=
  existsb (Nat.eqb h) (released w) = false.

(** A failure that [_request] retries: a transport error or a response
    whose status is not 2xx. *)
Definition is_failure (o : Outcome) : bool :=
  match o with
  | Failed _ => true
  | Answered r => negb (is_success r)
  end.

(** The HTTP status of a failure, when it has one. *)
Definition failure_status (o : Outcome) : option Z :=
  match o with
  | Failed _ => None
  | Answered r => Some (status_code r)
  end.

(** The text a failure is reported with: the status and body text of an
    HTTP failure, the error text of a transport failure. *)
Definition failure_message (o : Outcome) : string :=
  match o with
  | Failed t => "Request failed: " ++ t
  | Answered r => "HTTP " ++ Json.str_of_Z (status_code r) ++ ": " ++ text r
  end.

(** The trace of attempts that fail and are retried: a call, then the
    backoff of that attempt. *)
Definition retried (h : nat) (req : Request) (attempts : list Z) : list Event :=
  flat_map (fun attempt => [Call h req; Sleep (backoff attempt)]) attempts.

(** An envelope whose status is a string that does not upper-case to
    SUCCESS. *)
Definition non_success {lib : PyLib} (d : dict) : Prop :=
  exists s, Json.lookup "status" d = Some (JStr s) /\ upper s <> "SUCCESS".

(** An envelope whose status is a string that upper-cases to SUCCESS. *)
Definition is_success_envelope {lib : PyLib} (d : dict) : Prop :=
  exists s, Json.lookup "status" d = Some (JStr s) /\ upper s = "SUCCESS".

(** The call [get_pricing] sends. *)
Definition pricing_request (settings : PorkbunDomainSettings) : Request :=
  mkRequest "POST" "/pricing/get" (auth_payload settings).

(** [d] is the first record of [domains] named [name]. *)
Definition first_match (name : string) (domains : list Domain.t) (d : Domain.t) : Prop :=
  exists before after,
    domains = (before ++ d :: after)%list
    /\ Domain.domain d = name
    /\ forall x, In x before -> Domain.domain x <> name.

(** A computation that leaves the world as it finds it. *)
Definition stateless {A : Type} (c : M A) : Prop := forall w, snd (c w) = w.

(** Every call among [events] sends [req]. *)
Definition calls_send (req : Request) (events : list Event) : Prop :=
  Forall (fun ev => match ev with Call _ r => r = req | Sleep _ => True end) events.


(** What [get_pricing] keeps of a pricing map: the entry of a filter that is
    neither [None] nor empty, when the map has one, and the whole map
    without such a filter. *)
Definition filtered (tld : option string) (pricing : list (string * PricingInfo.t))
  : list (string * PricingInfo.t) :=
  match tld with
  | Some ((String _ _) as t) =>
      match Json.lookup t pricing with
      | Some entry => [(t, entry)]
      | None => []
      end
  | _ => pricing
  end.


(** The exception a run ended with, if any. *)
Definition raised {A : Type} (run : Result A * World) : option exn :=
  match fst run with
  | Return _ => None
  | Raise e => Some e
  end.

(** The exception with which the client operation behind a tool call ends
    in [w], if any. *)
Definition client_failure {lib : PyLib} (settings : PorkbunDomainSettings)
    (remote : nat -> Request -> Outcome) (c : ToolCall) (w : World) : option exn :=
  match c with
  | ListDomains => raised (list_domains settings remote w)
  | GetDomainInfo domain => raised (get_domain_info settings remote domain w)
  | GetAuthCode domain => raised (get_auth_code settings remote domain w)
  | RenewDomain domain years => raised (renew_domain settings remote domain years w)
  | GetPricing tld => raised (get_pricing settings remote tld w)
  end.

(** The tool call returns a response which, when it reports a failure,
    has an error text that is not empty. *)
Definition failure_has_error_text {lib : PyLib} (settings : PorkbunDomainSettings)
    (remote : nat -> Request -> Outcome) (c : ToolCall) (w : World) : Prop :=
  exists resp w',
    Tools.call settings remote c w = (Return resp, w')
    /\ (success resp = false -> exists s, error resp = Some s /\ s <> "").


(** A registrar that times out twice and then answers with [body]. *)
Definition remote_recovers (body : json) : nat -> Request -> Outcome :=
  fun n _ => if Nat.ltb n 2 then Failed "timed out" else Answered (ok_json body).

(** A pricing map as the registrar files it, without a [tld] in the
    entries. *)
Definition bare_pricing_envelope : dict :=
  [("status", JStr "SUCCESS");
   ("pricing",
    JDict [("com", JDict [("registration", JStr "9.68"); ("renewal", JStr "10.18")])])].

Definition null_auth_code_envelope : dict :=
  [("status", JStr "SUCCESS"); ("auth_code", JNull)].


(** ** More of the package *)

(** *** [config.py] *)

Definition default_base_url : string := "https://porkbun.com/api/json/v3".

(** [v.rstrip("/")]: [v] without its trailing slashes. *)
Fixpoint rstrip_slash (v : string) : string :=
  match v with
  | EmptyString => EmptyString
  | String c rest =>
      match rstrip_slash rest with
      | EmptyString => if Ascii.eqb c "/" then EmptyString else String c EmptyString
      | kept => String c kept
      end
  end.

(** The [base_url] field validator. *)
Definition validate_base_url (v : string) : string :=
  match v with
  | EmptyString => default_base_url
  | _ => rstrip_slash v
  end.

(** [s[-k:]] *)
Definition last_chars (k : nat) (s : string) : string :=
  substring (String.length s - k) k s.

Definition get_masked_api_key (s : PorkbunDomainSettings) : string :=
  match api_key s with
  | EmptyString => "***"
  | key =>
      if Nat.leb (String.length key) 4 then "***"
      else "..." ++ last_chars 4 key
  end.

(** *** [models.py] *)

(** The [success] property of [PorkbunResponse], which the three response
    models inherit; [status] is the field of the model. *)
Definition PorkbunResponse_success {lib : PyLib} (status : string) : bool :=
  String.eqb (upper status) "SUCCESS".

(** [PorkbunError.to_dict], on the attributes [__init__] stored; the other
    exception classes have no such method. *)
Definition to_dict (e : exn) : option dict :=
  match e with
  | PorkbunError message status details =>
      let result :=
        [("error", message);
         ("status", match status with Some n => JInt n | None => JNull end)] in
      match details with
      | [] => Some result
      | _ :: _ => Some (Json.set "details" (JDict details) result)
      end
  | _ => None
  end.

(** *** Vocabulary *)

(** The world in which the client operation behind a tool call ends. *)
Definition client_world {lib : PyLib} (settings : PorkbunDomainSettings)
    (remote : nat -> Request -> Outcome) (c : ToolCall) (w : World) : World :=
  match c with
  | ListDomains => snd (list_domains settings remote w)
  | GetDomainInfo domain => snd (get_domain_info settings remote domain w)
  | GetAuthCode domain => snd (get_auth_code settings remote domain w)
  | RenewDomain domain years => snd (renew_domain settings remote domain years w)
  | GetPricing tld => snd (get_pricing settings remote tld w)
  end.

(** The seconds slept in all. *)
Definition total (delays : list Q) : Q := fold_right Qplus 0%Q delays.

(** [s] is [n] slashes. *)
Fixpoint slashes (n : nat) : string :=
  match n with
  | O => EmptyString
  | S k => String "/" (slashes k)
  end.

(** [s] ends with a slash. *)
Fixpoint ends_with_slash (s : string) : bool :=
  match s with
  | EmptyString => false
  | String c EmptyString => Ascii.eqb c "/"
  | String _ rest => ends_with_slash rest
  end.

(** A body [_request] and [get_pricing] cannot read as an envelope, with the
    text of the [AttributeError] it causes: a JSON value that is not a
    dict, or a dict whose status is not a string. *)
Definition unreadable (v : json) : option string :=
  match v with
  | JDict d =>
      match Json.get d "status" (JStr "") with
      | JStr _ => None
      | st => Some (Json.no_attribute st "upper")
      end
  | _ => Some (Json.no_attribute v "get")
  end.


(** The delay the retry policy names for an attempt, 0.5 x 2^attempt
    seconds, as a rational number. *)
Definition exponential_delay (attempt : Z) : Q := ((1 # 2) * 2 ^ attempt)%Q.

(** [delays] are, in order and as numbers, the delays named for the
    attempts 0, ..., [n - 1]. *)
Definition exponential_delays (n : Z) (delays : list Q) : Prop :=
  Forall2 Qeq delays (map exponential_delay (range n)).


(** ** Properties *)

Lemma calls_app (a b : list Event) : calls (a ++ b) = (calls a + calls b)%nat.
Proof. unfold calls. now rewrite filter_app, length_app. Qed.

Lemma sleeps_app (a b : list Event) : sleeps (a ++ b) = (sleeps a ++ sleeps b)%list.
Proof. unfold sleeps. apply flat_map_app. Qed.

Lemma calls_retried h req attempts :
  calls (retried h req attempts) = List.length attempts.
Proof.
  induction attempts as [|a rest IH]; [reflexivity|].
  unfold retried in *. cbn [flat_map]. rewrite calls_app, IH. reflexivity.
Qed.

Lemma sleeps_retried h req attempts :
  sleeps (retried h req attempts) = map backoff attempts.
Proof.
  induction attempts as [|a rest IH]; [reflexivity|].
  unfold retried in *. cbn [flat_map]. rewrite sleeps_app, IH. reflexivity.
Qed.

Lemma extend_nil w : extend w [] = w.
Proof. destruct w; unfold extend; cbn. now rewrite app_nil_r. Qed.

Lemma extend_extend w a b : extend (extend w a) b = extend w (a ++ b)%list.
Proof. unfold extend; cbn. now rewrite app_assoc. Qed.

Lemma trace_extend w events : trace (extend w events) = (trace w ++ events)%list.
Proof. reflexivity. Qed.

Lemma record_extend e w : record e w = extend w [e].
Proof. reflexivity. Qed.

Lemma range_succ (n : Z) : 0 <= n -> range (n + 1) = (range n ++ [n])%list.
Proof.
  intros Hn. unfold range.
  replace (Z.to_nat (n + 1)) with (S (Z.to_nat n)) by lia.
  rewrite seq_S, map_app. cbn. now rewrite Z2Nat.id.
Qed.

Lemma range_cons (n : Z) :
  0 <= n -> range (n + 1) = 0 :: map Z.of_nat (seq 1 (Z.to_nat n)).
Proof.
  intros Hn. unfold range.
  replace (Z.to_nat (n + 1)) with (S (Z.to_nat n)) by lia.
  reflexivity.
Qed.

(** The delays of the attempts a valid configuration allows. *)
Lemma backoff_values :
  map (fun a => Qred (backoff a)) (range 5) = [1 # 2; 1; 2; 4; 8]%Q.
Proof. reflexivity. Qed.

Lemma backoff_exponential (attempt : Z) :
  0 <= attempt -> (backoff attempt == exponential_delay attempt)%Q.
Proof.
  intros Ha. unfold backoff, exponential_delay.
  now rewrite Zpower_Qpower by assumption.
Qed.

Lemma backoff_delays (n : Z) : exponential_delays n (map backoff (range n)).
Proof.
  unfold exponential_delays, range.
  induction (seq 0 (Z.to_nat n)) as [|a l IH]; cbn [map]; constructor; [|exact IH].
  apply backoff_exponential. lia.
Qed.

Lemma Forall2_Qeq_trans (a b c : list Q) :
  Forall2 Qeq a b -> Forall2 Qeq b c -> Forall2 Qeq a c.
Proof.
  intros Hab. revert c. induction Hab as [|x y a b Hxy Hab IH]; intros c Hbc.
  - inversion Hbc. constructor.
  - inversion Hbc as [|y' z b' c' Hyz Hbc']; subst. constructor.
    + now rewrite Hxy.
    + now apply IH.
Qed.

Lemma wf_open (w : World) : wf w = true -> open_in (handle_of w) (ensured w).
Proof.
  unfold wf, open_in, handle_of, ensured. intros H.
  apply andb_prop in H as [Hrel Hcur].
  destruct (_client w) as [h|] eqn:E.
  - apply andb_prop in Hcur as [_ Hn].
    now apply negb_true_iff in Hn.
  - cbn. destruct (existsb (Nat.eqb (created w)) (released w)) eqn:Ex; [|reflexivity].
    apply existsb_exists in Ex as [x [Hin Heq]].
    apply Nat.eqb_eq in Heq. subst x.
    rewrite forallb_forall in Hrel. specialize (Hrel _ Hin).
    apply Nat.ltb_lt in Hrel. lia.
Qed.

Lemma wf_ensured (w : World) : wf w = true -> wf (ensured w) = true.
Proof.
  unfold wf, ensured. intros H.
  destruct (_client w) as [h|] eqn:E; [now rewrite E|].
  cbn [_client created released]. apply andb_prop in H as [Hrel _].
  rewrite forallb_forall in Hrel.
  apply andb_true_intro; split.
  - apply forallb_forall. intros x Hx. specialize (Hrel _ Hx).
    apply Nat.ltb_lt in Hrel. apply Nat.ltb_lt. lia.
  - apply andb_true_intro; split; [apply Nat.ltb_lt; lia|].
    apply negb_true_iff.
    destruct (existsb (Nat.eqb (created w)) (released w)) eqn:Ex; [|reflexivity].
    apply existsb_exists in Ex as [x [Hin Heq]].
    apply Nat.eqb_eq in Heq. subst x. specialize (Hrel _ Hin).
    apply Nat.ltb_lt in Hrel. lia.
Qed.

Section Properties.
Context {lib : PyLib}.
Variable settings : PorkbunDomainSettings.
Variable remote : nat -> Request -> Outcome.

Lemma ensure_client_eq (w : World) :
  _ensure_client w = (Return (handle_of w), ensured w).
Proof. unfold _ensure_client, handle_of, ensured. now destruct (_client w). Qed.

(** *** Logging *)

Lemma logged_structured {A : Type} (fields : list string) (c : M A) (w : World) :
  structured_logging = true ->
  (log_fields fields ;;; c) w = c w.
Proof.
  intros Hlog. unfold bind, log_fields. destruct fields; [reflexivity|].
  now rewrite Hlog.
Qed.

Lemma logged_fallback {A : Type} (first_field : string) (fields : list string)
    (c : M A) (w : World) :
  structured_logging = false ->
  (log_fields (first_field :: fields) ;;; c) w =
    (Raise (TypeError ("Logger._log() got an unexpected keyword argument '"
                       ++ first_field ++ "'")), w).
Proof. intros Hlog. unfold bind, log_fields. now rewrite Hlog. Qed.

(** In [H], a run that starts with a warning: go on past the warning with
    the structured logger, and end with [Hstop] where the warning raises. *)
Ltac warned_in H Hstop :=
  unfold logger_warning in H;
  let Hlog := fresh "Hlog" in
  destruct structured_logging eqn:Hlog;
  [ rewrite logged_structured in H by exact Hlog
  | rewrite logged_fallback in H by exact Hlog; now apply (Hstop _ H) ].

(** *** One attempt *)

Lemma attempt_failed h req w t :
  open_in h w ->
  remote (calls (trace w)) req = Failed t ->
  attempt_once remote h req w = (Raise (RequestError t), extend w [Call h req]).
Proof.
  intros Ho Hr. unfold attempt_once, bind, client_request.
  now rewrite Ho, Hr.
Qed.

Lemma attempt_status h req w r :
  open_in h w ->
  remote (calls (trace w)) req = Answered r ->
  is_success r = false ->
  attempt_once remote h req w =
    (Raise (HTTPStatusError (status_error_text r) r), extend w [Call h req]).
Proof.
  intros Ho Hr Hs. unfold attempt_once, bind, client_request, raise_for_status.
  now rewrite Ho, Hr, Hs.
Qed.

Lemma attempt_envelope h req w r d s :
  open_in h w ->
  remote (calls (trace w)) req = Answered r ->
  is_success r = true ->
  json_body r = inr (JDict d) ->
  Json.get d "status" (JStr "") = JStr s ->
  attempt_once remote h req w =
    (if String.eqb (upper s) "SUCCESS" then Return d
     else Raise (PorkbunError (Json.get d "message" (JStr "Unknown API error"))
                   (Some (status_code r)) d),
     extend w [Call h req]).
Proof.
  intros Ho Hr Hs Hb Hg.
  unfold attempt_once, bind, client_request, raise_for_status, response_json.
  rewrite Ho, Hr, Hs. cbn. rewrite Hb. cbn. rewrite Hg. cbn.
  now destruct (String.eqb (upper s) "SUCCESS").
Qed.

(** *** The retry loop *)

Lemma trace_ensured (w : World) : trace (ensured w) = trace w.
Proof. unfold ensured. now destruct (_client w). Qed.

Lemma open_in_extend h w events : open_in h w -> open_in h (extend w events).
Proof. exact (fun H => H). Qed.

(** An attempt that fails is slept on and retried while [attempt] is below
    [max_retries], and reported otherwise. *)
Lemma retry_loop_failure h req attempt rest w :
  structured_logging = true ->
  open_in h w ->
  is_failure (remote (calls (trace w)) req) = true ->
  retry_loop settings remote h req (attempt :: rest) w =
    if attempt <? max_retries settings then
      retry_loop settings remote h req rest
        (extend w [Call h req; Sleep (backoff attempt)])
    else
      (Raise (PorkbunError (JStr (failure_message (remote (calls (trace w)) req)))
                (failure_status (remote (calls (trace w)) req)) []),
       extend w [Call h req]).
Proof.
  intros Hlog Ho Hf. cbn [retry_loop]. unfold try_except.
  destruct (remote (calls (trace w)) req) as [t|r] eqn:Hr.
  - rewrite (attempt_failed h req w t Ho Hr). cbn [on_failure].
    unfold logger_warning. rewrite logged_structured by exact Hlog.
    destruct (attempt <? max_retries settings); [|reflexivity].
    unfold bind, sleep. rewrite !record_extend, extend_extend. reflexivity.
  - cbn in Hf. apply negb_true_iff in Hf.
    rewrite (attempt_status h req w r Ho Hr Hf). cbn [on_failure].
    unfold logger_warning. rewrite logged_structured by exact Hlog.
    destruct (attempt <? max_retries settings); [|reflexivity].
    unfold bind, sleep. rewrite !record_extend, extend_extend. reflexivity.
Qed.

(** With the logger of [logging], the warning of the first failed attempt
    raises inside the [except] clause: the loop ends there, before any
    sleep. *)
Lemma retry_loop_failure_fallback h req attempt rest w :
  structured_logging = false ->
  open_in h w ->
  is_failure (remote (calls (trace w)) req) = true ->
  retry_loop settings remote h req (attempt :: rest) w =
    (Raise (TypeError "Logger._log() got an unexpected keyword argument 'endpoint'"),
     extend w [Call h req]).
Proof.
  intros Hlog Ho Hf. cbn [retry_loop]. unfold try_except.
  destruct (remote (calls (trace w)) req) as [t|r] eqn:Hr.
  - rewrite (attempt_failed h req w t Ho Hr). cbn [on_failure].
    unfold logger_warning. now rewrite logged_fallback by exact Hlog.
  - cbn in Hf. apply negb_true_iff in Hf.
    rewrite (attempt_status h req w r Ho Hr Hf). cbn [on_failure].
    unfold logger_warning. now rewrite logged_fallback by exact Hlog.
Qed.

(** An attempt that does not fail ends the loop with its result. *)
Lemma retry_loop_envelope h req attempt rest w r d s :
  open_in h w ->
  remote (calls (trace w)) req = Answered r ->
  is_success r = true ->
  json_body r = inr (JDict d) ->
  Json.get d "status" (JStr "") = JStr s ->
  retry_loop settings remote h req (attempt :: rest) w =
    (if String.eqb (upper s) "SUCCESS" then Return d
     else Raise (PorkbunError (Json.get d "message" (JStr "Unknown API error"))
                   (Some (status_code r)) d),
     extend w [Call h req]).
Proof.
  intros Ho Hr Hs Hb Hg. cbn [retry_loop]. unfold try_except.
  rewrite (attempt_envelope h req w r d s Ho Hr Hs Hb Hg).
  now destruct (String.eqb (upper s) "SUCCESS").
Qed.

(** Attempts [a .. max_retries] that all fail: every one is made, all but
    the last are slept on, and the last failure is reported. *)
Lemma retry_loop_exhausted h req :
  structured_logging = true ->
  forall n a w,
    open_in h w ->
    (a + n)%nat = Z.to_nat (max_retries settings) ->
    0 <= max_retries settings ->
    (forall i, (i <= n)%nat -> is_failure (remote (calls (trace w) + i) req) = true) ->
    retry_loop settings remote h req (map Z.of_nat (seq a (S n))) w =
      (Raise (PorkbunError
                (JStr (failure_message (remote (calls (trace w) + n) req)))
                (failure_status (remote (calls (trace w) + n) req)) []),
       extend w (retried h req (map Z.of_nat (seq a n)) ++ [Call h req])).
Proof.
  intros Hlog.
  induction n as [|n IH]; intros a w Ho Han Hmax Hfail.
  - cbn [seq map]. rewrite retry_loop_failure; auto.
    2:{ specialize (Hfail 0%nat (Nat.le_refl _)). now rewrite Nat.add_0_r in Hfail. }
    replace (Z.of_nat a <? max_retries settings) with false
      by (symmetry; apply Z.ltb_ge; lia).
    now rewrite Nat.add_0_r.
  - change (seq a (S (S n))) with (a :: seq (S a) (S n)). cbn [map].
    rewrite retry_loop_failure; auto.
    2:{ specialize (Hfail 0%nat (Nat.le_0_l _)). now rewrite Nat.add_0_r in Hfail. }
    replace (Z.of_nat a <? max_retries settings) with true
      by (symmetry; apply Z.ltb_lt; lia).
    rewrite IH; auto.
    + rewrite extend_extend, trace_extend, calls_app.
      change (calls [Call h req; Sleep (backoff (Z.of_nat a))]) with 1%nat.
      replace (calls (trace w) + 1 + n)%nat with (calls (trace w) + S n)%nat by lia.
      reflexivity.
    + lia.
    + intros i Hi. rewrite trace_extend, calls_app.
      change (calls [Call h req; Sleep (backoff (Z.of_nat a))]) with 1%nat.
      replace (calls (trace w) + 1 + i)%nat with (calls (trace w) + S i)%nat by lia.
      apply Hfail. lia.
Qed.

(** With the structured logger, when every attempt of an authenticated
    request meets a transport error or a non-2xx response, [_request]
    makes [max_retries + 1] calls, sleeps after each call but the last,
    for 0.5 x 2^attempt seconds after attempt 0, 1, ..., [max_retries - 1]
    in that order, and then raises a [PorkbunError] that carries the last
    failure: its HTTP status and response text when it is an HTTP failure,
    and no status and the error text when it is a transport failure. *)
Theorem request_retries_then_raises
    (w : World) (method endpoint : string) (payload : option dict) :
  let req := mkRequest method endpoint (full_payload settings payload) in
  let h := handle_of w in
  let n := calls (trace w) in
  let R := Z.to_nat (max_retries settings) in
  let last := remote (n + R)%nat req in
  structured_logging = true ->
  wf w = true ->
  valid_settings settings ->
  (forall i, (i <= R)%nat -> is_failure (remote (n + i)%nat req) = true) ->
  exists w' delays,
    _request settings remote method endpoint payload w =
      (Raise (PorkbunError (JStr (failure_message last)) (failure_status last) []), w')
    /\ trace w' =
         (trace w ++ retried h req (range (max_retries settings)) ++ [Call h req])%list
    /\ calls (trace w') = (n + (R + 1))%nat
    /\ sleeps (trace w') = (sleeps (trace w) ++ delays)%list
    /\ exponential_delays (max_retries settings) delays.
Proof.
  intros req h n R last Hlog Hwf [Hlo Hhi] Hfail. subst req h n R last.
  eexists. exists (map backoff (range (max_retries settings))).
  split; [|split; [|split; [|split]]].
  - unfold _request, bind. rewrite ensure_client_eq.
    rewrite range_cons by assumption.
    change (0 :: map Z.of_nat (seq 1 (Z.to_nat (max_retries settings))))
      with (map Z.of_nat (seq 0 (S (Z.to_nat (max_retries settings))))).
    rewrite (retry_loop_exhausted (handle_of w) _ Hlog
               (Z.to_nat (max_retries settings)) 0 (ensured w)); auto.
    + rewrite trace_ensured. reflexivity.
    + now apply wf_open.
    + rewrite trace_ensured. exact Hfail.
  - cbn [trace extend]. rewrite trace_ensured. reflexivity.
  - cbn [trace extend]. rewrite trace_ensured, !calls_app, calls_retried.
    unfold range. rewrite length_map, length_seq. reflexivity.
  - cbn [trace extend]. rewrite trace_ensured, !sleeps_app, sleeps_retried.
    cbn. now rewrite app_nil_r.
  - apply backoff_delays.
Qed.

(** With the logger of [logging], a first attempt that meets a transport
    error or a non-2xx response ends [_request]: the [TypeError] of the
    warning leaves the [except] clause after the one call, and nothing is
    slept or retried. *)
Lemma request_fallback_stops_at_first_failure
    (w : World) (method endpoint : string) (payload : option dict) :
  let req := mkRequest method endpoint (full_payload settings payload) in
  structured_logging = false ->
  wf w = true ->
  0 <= max_retries settings ->
  is_failure (remote (calls (trace w)) req) = true ->
  _request settings remote method endpoint payload w =
    (Raise (TypeError "Logger._log() got an unexpected keyword argument 'endpoint'"),
     extend (ensured w) [Call (handle_of w) req]).
Proof.
  intros req Hlog Hwf Hmax Hf. subst req.
  unfold _request, bind. rewrite ensure_client_eq.
  rewrite range_cons by assumption.
  apply retry_loop_failure_fallback; auto using wf_open.
  now rewrite trace_ensured.
Qed.


(** *** The first response is an envelope *)

Lemma get_status_str (d : dict) (s : string) :
  Json.lookup "status" d = Some (JStr s) ->
  Json.get d "status" (JStr "") = JStr s.
Proof. intros H. unfold Json.get. now rewrite H. Qed.

Lemma get_status_absent (d : dict) :
  Json.lookup "status" d = None ->
  Json.get d "status" (JStr "") = JStr "".
Proof. intros H. unfold Json.get. now rewrite H. Qed.

(** With at least one attempt allowed, a 2xx response whose body is a dict
    with a string status (or none, read as the empty string) ends
    [_request] at once. *)
Lemma request_first_envelope
    (w : World) (method endpoint : string) (payload : option dict)
    (r : Response) (d : dict) (s : string) :
  wf w = true ->
  0 <= max_retries settings ->
  remote (calls (trace w)) (mkRequest method endpoint (full_payload settings payload))
    = Answered r ->
  is_success r = true ->
  json_body r = inr (JDict d) ->
  Json.get d "status" (JStr "") = JStr s ->
  _request settings remote method endpoint payload w =
    (if String.eqb (upper s) "SUCCESS" then Return d
     else Raise (PorkbunError (Json.get d "message" (JStr "Unknown API error"))
                   (Some (status_code r)) d),
     extend (ensured w)
       [Call (handle_of w) (mkRequest method endpoint (full_payload settings payload))]).
Proof.
  intros Hwf Hmax Hr Hs Hb Hg.
  unfold _request, bind. rewrite ensure_client_eq.
  rewrite range_cons by assumption.
  rewrite (retry_loop_envelope _ _ _ _ _ r d s); auto.
  - now apply wf_open.
  - now rewrite trace_ensured.
Qed.

(** C2.  A 2xx response whose body is an envelope with a status that does
    not upper-case to SUCCESS makes [_request] raise a [PorkbunError] on
    the first attempt: one call is sent, nothing is slept, and the error
    carries the message of the envelope, the HTTP status and the whole
    body as details. *)
Theorem request_non_success_raises_at_once
    (w : World) (method endpoint : string) (payload : option dict)
    (r : Response) (d : dict) :
  let req := mkRequest method endpoint (full_payload settings payload) in
  wf w = true ->
  valid_settings settings ->
  remote (calls (trace w)) req = Answered r ->
  is_success r = true ->
  json_body r = inr (JDict d) ->
  non_success d ->
  exists w',
    _request settings remote method endpoint payload w =
      (Raise (PorkbunError (Json.get d "message" (JStr "Unknown API error"))
                (Some (status_code r)) d), w')
    /\ trace w' = (trace w ++ [Call (handle_of w) req])%list
    /\ calls (trace w') = S (calls (trace w))
    /\ sleeps (trace w') = sleeps (trace w).
Proof.
  intros req Hwf [Hlo _] Hr Hs Hb (s & Hst & Hup). subst req.
  rewrite (request_first_envelope w method endpoint payload r d s); auto.
  2: now apply get_status_str.
  apply String.eqb_neq in Hup. rewrite Hup.
  eexists; split; [reflexivity|].
  rewrite trace_extend, trace_ensured, calls_app, sleeps_app.
  repeat split.
  - cbn. lia.
  - cbn. now rewrite app_nil_r.
Qed.


(** *** Pricing *)

Lemma stateless_ret {A : Type} (a : A) : stateless (ret a).
Proof. now intros w. Qed.

Lemma stateless_raise {A : Type} (e : exn) : stateless (@raise A e).
Proof. now intros w. Qed.

Lemma stateless_bind {A B : Type} (c : M A) (k : A -> M B) :
  stateless c -> (forall a, stateless (k a)) -> stateless (bind c k).
Proof.
  intros Hc Hk w. unfold bind. specialize (Hc w).
  destruct (c w) as [[a|e] w1]; cbn in *; subst; [apply Hk|reflexivity].
Qed.

Lemma stateless_run {A : Type} (c : M A) (w : World) :
  stateless c -> c w = (fst (c w), w).
Proof. intros H. specialize (H w). destruct (c w); cbn in *. now subst. Qed.

Ltac stateless_step :=
  match goal with
  | |- stateless (bind _ _) => apply stateless_bind; [|intros ?]
  | |- stateless (ret _) => apply stateless_ret
  | |- stateless (raise _) => apply stateless_raise
  | |- stateless (match ?x with _ => _ end) => destruct x
  end.

Lemma stateless_raise_for_status r : stateless (raise_for_status r).
Proof. unfold raise_for_status. repeat stateless_step. Qed.

Lemma stateless_response_json r : stateless (response_json r).
Proof. unfold response_json. repeat stateless_step. Qed.

Lemma stateless_str_upper v : stateless (str_upper v).
Proof. unfold str_upper. repeat stateless_step. Qed.

Lemma stateless_validated {A : Type} model (v : dict -> option A) d :
  stateless (validated model v d).
Proof. unfold validated. repeat stateless_step. Qed.

Create HintDb stateless.

#[local] Hint Resolve stateless_raise_for_status stateless_response_json
  stateless_str_upper stateless_validated : stateless.

(** Whatever it meets, [get_pricing] sends one call and never sleeps. *)
Lemma get_pricing_one_call (tld : option string) (w : World) :
  wf w = true ->
  exists res,
    get_pricing settings remote tld w =
      (res, extend (ensured w) [Call (handle_of w) (pricing_request settings)]).
Proof.
  intros Hwf. unfold get_pricing. unfold bind at 1. rewrite ensure_client_eq.
  unfold bind at 1. unfold client_request. rewrite (wf_open w Hwf), trace_ensured.
  fold (pricing_request settings).
  destruct (remote (calls (trace w)) (pricing_request settings)) as [t|r];
    rewrite record_extend; [eexists; reflexivity|].
  eexists. apply stateless_run.
  repeat (stateless_step || solve [auto with stateless]).
Qed.

Lemma get_pricing_failed (tld : option string) (w : World) (t : string) :
  wf w = true ->
  remote (calls (trace w)) (pricing_request settings) = Failed t ->
  fst (get_pricing settings remote tld w) = Raise (RequestError t).
Proof.
  intros Hwf Hr. unfold get_pricing. unfold bind at 1. rewrite ensure_client_eq.
  unfold bind at 1. unfold client_request. rewrite (wf_open w Hwf), trace_ensured.
  fold (pricing_request settings). now rewrite Hr.
Qed.

Lemma get_pricing_status (tld : option string) (w : World) (r : Response) :
  wf w = true ->
  remote (calls (trace w)) (pricing_request settings) = Answered r ->
  is_success r = false ->
  fst (get_pricing settings remote tld w) =
    Raise (HTTPStatusError (status_error_text r) r).
Proof.
  intros Hwf Hr Hs. unfold get_pricing. unfold bind at 1. rewrite ensure_client_eq.
  unfold bind at 1. unfold client_request. rewrite (wf_open w Hwf), trace_ensured.
  fold (pricing_request settings). rewrite Hr.
  unfold bind, raise_for_status. now rewrite Hs.
Qed.

Lemma get_pricing_envelope
    (tld : option string) (w : World) (r : Response) (d : dict) (s : string) :
  wf w = true ->
  remote (calls (trace w)) (pricing_request settings) = Answered r ->
  is_success r = true ->
  json_body r = inr (JDict d) ->
  Json.get d "status" (JStr "") = JStr s ->
  fst (get_pricing settings remote tld w) =
    if String.eqb (upper s) "SUCCESS" then
      match Validate.PricingResponse d with
      | Some resp => Return (filtered tld (PricingResponse.pricing resp))
      | None => Raise (ValidationError (validation_text "PricingResponse" (JDict d)))
      end
    else
      Raise (PorkbunError (Json.get d "message" (JStr "Failed to get pricing")) None []).
Proof.
  intros Hwf Hr Hs Hb Hg. unfold get_pricing. unfold bind at 1. rewrite ensure_client_eq.
  unfold bind at 1. unfold client_request. rewrite (wf_open w Hwf), trace_ensured.
  fold (pricing_request settings). rewrite Hr.
  unfold bind, raise_for_status, response_json. rewrite Hs. cbn. rewrite Hb. cbn.
  rewrite Hg. cbn.
  destruct (String.eqb (upper s) "SUCCESS"); [|reflexivity]. cbn.
  unfold validated.
  destruct (Validate.PricingResponse d) as [resp|]; [|reflexivity]. cbn.
  destruct tld as [[|c t]|]; cbn; try reflexivity.
  unfold Json.mem.
  now destruct (Json.lookup (String c t) (PricingResponse.pricing resp)).
Qed.

(** C7.  [get_pricing] sends one call whatever that call meets, and never
    sleeps: a transport error and a non-2xx response are let through as
    the exceptions httpx raised, without a second call, and a non-success
    envelope raises a [PorkbunError] with the message of the envelope. *)
Theorem get_pricing_never_retries (tld : option string) (w : World) :
  let req := pricing_request settings in
  let met := remote (calls (trace w)) req in
  wf w = true ->
  exists res w',
    get_pricing settings remote tld w = (res, w')
    /\ trace w' = (trace w ++ [Call (handle_of w) req])%list
    /\ calls (trace w') = S (calls (trace w))
    /\ sleeps (trace w') = sleeps (trace w)
    /\ (forall t, met = Failed t -> res = Raise (RequestError t))
    /\ (forall r, met = Answered r -> is_success r = false ->
          res = Raise (HTTPStatusError (status_error_text r) r))
    /\ (forall r d, met = Answered r -> is_success r = true ->
          json_body r = inr (JDict d) -> non_success d ->
          res = Raise (PorkbunError
                         (Json.get d "message" (JStr "Failed to get pricing")) None [])).
Proof.
  intros req met Hwf. subst req met.
  destruct (get_pricing_one_call tld w Hwf) as [res Hrun].
  exists res. eexists. split; [exact Hrun|].
  rewrite trace_extend, trace_ensured, calls_app, sleeps_app.
  split; [reflexivity|]. split; [cbn; lia|]. split; [cbn; now rewrite app_nil_r|].
  pose proof (f_equal fst Hrun) as Hres. cbn [fst] in Hres.
  repeat split.
  - intros t Ht. rewrite <- Hres. now apply get_pricing_failed.
  - intros r Hr Hs. rewrite <- Hres. now apply get_pricing_status.
  - intros r d Hr Hs Hb (s & Hst & Hup). rewrite <- Hres.
    rewrite (get_pricing_envelope tld w r d s Hwf Hr Hs Hb (get_status_str d s Hst)).
    apply String.eqb_neq in Hup. now rewrite Hup.
Qed.

(** C5, amended.  On a success envelope of the pricing endpoint whose body
    validates as a [PricingResponse], [get_pricing] returns the whole
    validated map when no filter or the empty string is supplied; for a
    filter that is not empty it returns the singleton of the filter and
    its entry when the filter is a key of the map, and the empty mapping
    when it is not. *)
Theorem get_pricing_filter
    (tld : option string) (w : World) (r : Response) (d : dict)
    (resp : PricingResponse.t) :
  let pricing := PricingResponse.pricing resp in
  let result := fst (get_pricing settings remote tld w) in
  wf w = true ->
  remote (calls (trace w)) (pricing_request settings) = Answered r ->
  is_success r = true ->
  json_body r = inr (JDict d) ->
  is_success_envelope d ->
  Validate.PricingResponse d = Some resp ->
  (tld = None \/ tld = Some "" -> result = Return pricing)
  /\ (forall t entry, tld = Some t -> t <> "" ->
        Json.lookup t pricing = Some entry -> result = Return [(t, entry)])
  /\ (forall t, tld = Some t -> t <> "" ->
        Json.lookup t pricing = None -> result = Return []).
Proof.
  intros pricing result Hwf Hr Hs Hb (s & Hst & Hup) Hv. subst pricing result.
  rewrite (get_pricing_envelope tld w r d s Hwf Hr Hs Hb (get_status_str d s Hst)).
  rewrite Hup, Hv. cbn [String.eqb].
  replace (String.eqb "SUCCESS" "SUCCESS") with true by reflexivity.
  repeat split.
  - intros [->| ->]; reflexivity.
  - intros t entry -> Ht Hl. destruct t as [|c t]; [congruence|].
    cbn [filtered]. now rewrite Hl.
  - intros t -> Ht Hl. destruct t as [|c t]; [congruence|].
    cbn [filtered]. now rewrite Hl.
Qed.

(** C9.  A 2xx response whose body is a dict without a status field is
    read with the empty string as its status, which is not SUCCESS: the
    authenticated request path and the pricing path both raise a
    [PorkbunError], after the one call that met the response. *)
Theorem missing_status_is_non_success
    (w : World) (r : Response) (d : dict) :
  wf w = true ->
  valid_settings settings ->
  upper "" = "" ->
  is_success r = true ->
  json_body r = inr (JDict d) ->
  Json.lookup "status" d = None ->
  (forall method endpoint payload,
      remote (calls (trace w)) (mkRequest method endpoint (full_payload settings payload))
        = Answered r ->
      exists w',
        _request settings remote method endpoint payload w =
          (Raise (PorkbunError (Json.get d "message" (JStr "Unknown API error"))
                    (Some (status_code r)) d), w')
        /\ calls (trace w') = S (calls (trace w)))
  /\ (forall tld,
      remote (calls (trace w)) (pricing_request settings) = Answered r ->
      exists w',
        get_pricing settings remote tld w =
          (Raise (PorkbunError (Json.get d "message" (JStr "Failed to get pricing"))
                    None []), w')
        /\ calls (trace w') = S (calls (trace w))).
Proof.
  intros Hwf [Hlo _] Hup Hs Hb Hst. split.
  - intros method endpoint payload Hr.
    rewrite (request_first_envelope w method endpoint payload r d "");
      auto using get_status_absent.
    rewrite Hup. cbn [String.eqb]. eexists; split; [reflexivity|].
    rewrite trace_extend, trace_ensured, calls_app. cbn. lia.
  - intros tld Hr.
    destruct (get_pricing_one_call tld w Hwf) as [res Hrun].
    pose proof (f_equal fst Hrun) as Hres. cbn [fst] in Hres.
    rewrite (get_pricing_envelope tld w r d "" Hwf Hr Hs Hb (get_status_absent d Hst))
      in Hres.
    rewrite Hup in Hres. cbn [String.eqb] in Hres. subst res.
    eexists; split; [exact Hrun|].
    rewrite trace_extend, trace_ensured, calls_app. cbn. lia.
Qed.


(** *** What a run of [_request] sends, and what it returns *)

Lemma attempt_once_cases h req w :
  attempt_once remote h req w = (Raise (RuntimeError closed_text), w)
  \/ exists res,
       attempt_once remote h req w = (res, extend w [Call h req])
       /\ forall d, res = Return d ->
            exists s, Json.get d "status" (JStr "") = JStr s /\ upper s = "SUCCESS".
Proof.
  destruct (attempt_once remote h req w) as [res w1] eqn:Hrun.
  unfold attempt_once in Hrun. unfold bind at 1 in Hrun. unfold client_request in Hrun.
  destruct (existsb (Nat.eqb h) (released w)).
  { injection Hrun as <- <-. now left. }
  right. change (record (Call h req) w) with (extend w [Call h req]) in Hrun.
  assert (Hraise : forall e, (Raise e, extend w [Call h req]) = (res, w1) ->
            exists res0, (res, w1) = (res0, extend w [Call h req])
              /\ forall d, res0 = Return d ->
                   exists s, Json.get d "status" (JStr "") = JStr s
                             /\ upper s = "SUCCESS").
  { intros e He. injection He as <- <-. eexists; split; [reflexivity|discriminate]. }
  destruct (remote (calls (trace w)) req) as [t|r]; [now apply (Hraise _ Hrun)|].
  unfold bind, raise_for_status, response_json in Hrun.
  destruct (is_success r); cbn in Hrun; [|now apply (Hraise _ Hrun)].
  destruct (json_body r) as [t|v]; cbn in Hrun; [now apply (Hraise _ Hrun)|].
  destruct v; cbn in Hrun; try (now apply (Hraise _ Hrun)).
  destruct (Json.get items "status" (JStr "")) eqn:Hg; cbn in Hrun;
    try (now apply (Hraise _ Hrun)).
  destruct (String.eqb (upper s) "SUCCESS") eqn:Hup; cbn in Hrun;
    [|now apply (Hraise _ Hrun)].
  injection Hrun as <- <-. eexists; split; [reflexivity|].
  intros d Hd. injection Hd as <-. exists s. split; [exact Hg|].
  now apply String.eqb_eq.
Qed.

Lemma calls_send_nil req : calls_send req [].
Proof. constructor. Qed.

Lemma calls_send_app req a b :
  calls_send req a -> calls_send req b -> calls_send req (a ++ b).
Proof. unfold calls_send. intros. apply Forall_app. now split. Qed.

Lemma retry_loop_run h req attempts :
  forall w res w',
    retry_loop settings remote h req attempts w = (res, w') ->
    exists events,
      w' = extend w events
      /\ calls_send req events
      /\ forall d, res = Return d ->
           (1 <= calls events)%nat
           /\ exists s, Json.get d "status" (JStr "") = JStr s /\ upper s = "SUCCESS".
Proof.
  induction attempts as [|attempt rest IH]; intros w res w' Hrun.
  - cbn in Hrun. injection Hrun as <- <-. exists []. rewrite extend_nil.
    repeat split; try apply calls_send_nil; discriminate.
  - cbn [retry_loop] in Hrun. unfold try_except in Hrun.
    destruct (attempt_once_cases h req w) as [Hc|(r1 & Hc & Hret)]; rewrite Hc in Hrun.
    + cbn in Hrun. injection Hrun as <- <-. exists []. rewrite extend_nil.
      repeat split; try apply calls_send_nil; discriminate.
    + assert (Hone : calls_send req [Call h req]) by (repeat constructor).
      assert (Hstop : forall e, (Raise e, extend w [Call h req]) = (res, w') ->
                exists events, w' = extend w events /\ calls_send req events
                  /\ forall d, res = Return d ->
                       (1 <= calls events)%nat
                       /\ exists s, Json.get d "status" (JStr "") = JStr s
                                    /\ upper s = "SUCCESS").
      { intros e He. injection He as <- <-. exists [Call h req].
        repeat split; auto; discriminate. }
      assert (Hnext : retry_loop settings remote h req rest
                        (extend w [Call h req; Sleep (backoff attempt)]) = (res, w') ->
                exists events, w' = extend w events /\ calls_send req events
                  /\ forall d, res = Return d ->
                       (1 <= calls events)%nat
                       /\ exists s, Json.get d "status" (JStr "") = JStr s
                                    /\ upper s = "SUCCESS").
      { intros Hn. apply IH in Hn as (events & -> & Hsend & Hd).
        exists ([Call h req; Sleep (backoff attempt)] ++ events)%list.
        rewrite extend_extend. split; [reflexivity|]. split.
        - apply calls_send_app; [repeat constructor|assumption].
        - intros d Hres. destruct (Hd d Hres) as [Hge Hs]. split; [|exact Hs].
          rewrite calls_app. lia. }
      destruct r1 as [d|e].
      * injection Hrun as <- <-. exists [Call h req].
        split; [reflexivity|]. split; [exact Hone|].
        intros d' Hd'. injection Hd' as <-. split; [cbn; lia|].
        exact (Hret d eq_refl).
      * destruct e; cbn [on_failure] in Hrun; try (now apply (Hstop _ Hrun)).
        -- warned_in Hrun Hstop.
           destruct (attempt <? max_retries settings) eqn:Hlt.
           ++ unfold bind, sleep in Hrun.
              rewrite record_extend, extend_extend in Hrun. now apply Hnext.
           ++ apply (Hstop _ Hrun).
        -- warned_in Hrun Hstop.
           destruct (attempt <? max_retries settings) eqn:Hlt.
           ++ unfold bind, sleep in Hrun.
              rewrite record_extend, extend_extend in Hrun. now apply Hnext.
           ++ apply (Hstop _ Hrun).
Qed.

(** Every call of [_request] sends the method, endpoint and merged payload
    it was given; when it returns, at least one call was sent and the dict
    returned has a status that upper-cases to SUCCESS. *)
Lemma request_run (method endpoint : string) (payload : option dict) w res w' :
  _request settings remote method endpoint payload w = (res, w') ->
  exists events,
    trace w' = (trace w ++ events)%list
    /\ calls_send (mkRequest method endpoint (full_payload settings payload)) events
    /\ forall d, res = Return d ->
         (1 <= calls events)%nat
         /\ exists s, Json.get d "status" (JStr "") = JStr s /\ upper s = "SUCCESS".
Proof.
  unfold _request, bind. rewrite ensure_client_eq. intros Hrun.
  apply retry_loop_run in Hrun as (events & -> & Hsend & Hd).
  exists events. rewrite trace_extend, trace_ensured. auto.
Qed.


(** *** Domain operations *)

Lemma scan_first_match (name : string) (domains : list Domain.t) (d : Domain.t) :
  first_match name domains d -> scan name domains = Some d.
Proof.
  intros (before & after & -> & Hd & Hbefore).
  induction before as [|x before IH]; cbn.
  - apply String.eqb_eq in Hd. now rewrite Hd.
  - assert (Hx : Domain.domain x <> name) by (apply Hbefore; now left).
    apply String.eqb_neq in Hx. rewrite Hx.
    apply IH. intros y Hy. apply Hbefore. now right.
Qed.

Lemma scan_none (name : string) (domains : list Domain.t) :
  (forall x, In x domains -> Domain.domain x <> name) -> scan name domains = None.
Proof.
  induction domains as [|x rest IH]; intros Hall; [reflexivity|]. cbn.
  assert (Hx : Domain.domain x <> name) by (apply Hall; now left).
  apply String.eqb_neq in Hx. rewrite Hx.
  apply IH. intros y Hy. apply Hall. now right.
Qed.

Lemma first_match_exists (name : string) (domains : list Domain.t) :
  (exists x, In x domains /\ Domain.domain x = name) ->
  exists d, first_match name domains d.
Proof.
  induction domains as [|x rest IH]; intros (y & Hin & Hy); [destruct Hin|].
  destruct (String.eqb_spec (Domain.domain x) name) as [Heq|Hne].
  - exists x, [], rest. split; [reflexivity|]. split; [exact Heq|]. intros ? [].
  - destruct Hin as [->|Hin]; [contradiction|].
    destruct IH as (d & before & after & -> & Hd & Hb); [now exists y|].
    exists d, (x :: before), after. split; [reflexivity|]. split; [exact Hd|].
    intros z [<-|Hz]; auto.
Qed.

(** C4.  [get_domain_info] scans the list that [list_domains] returned for
    the requested name: when some record has that name the first such
    record is returned as it is, and when none has, a [PorkbunError] with
    status 404 is raised. *)
Theorem get_domain_info_linear_scan
    (name : string) (w w' : World) (domains : list Domain.t) :
  list_domains settings remote w = (Return domains, w') ->
  ((exists x, In x domains /\ Domain.domain x = name) ->
     exists d, first_match name domains d
               /\ get_domain_info settings remote name w = (Return d, w'))
  /\ ((forall x, In x domains -> Domain.domain x <> name) ->
        get_domain_info settings remote name w =
          (Raise (PorkbunError (JStr ("Domain " ++ name ++ " not found in account"))
                    (Some 404) []), w')).
Proof.
  intros Hlist. split.
  - intros Hex. destruct (first_match_exists name domains Hex) as [d Hd].
    exists d. split; [exact Hd|].
    unfold get_domain_info, bind. rewrite Hlist.
    now rewrite (scan_first_match name domains d Hd).
  - intros Hnone. unfold get_domain_info, bind. rewrite Hlist.
    now rewrite (scan_none name domains Hnone).
Qed.

Lemma full_payload_years (years : Z) :
  full_payload settings (Some [("years", JInt years)]) =
    (auth_payload settings ++ [("years", JInt years)])%list.
Proof. reflexivity. Qed.

(** C6.  When the remote call of [renew_domain] succeeds, the record
    returned has the requested years, a true success flag, and as message
    the message field of the response when it has one and the default
    text otherwise. *)
Theorem renew_domain_result
    (domain : string) (years : Z) (w w' : World) (response : dict) :
  let req := mkRequest "POST" ("/domain/renew/" ++ domain)
               (auth_payload settings ++ [("years", JInt years)])%list in
  _request settings remote "POST" ("/domain/renew/" ++ domain)
    (Some [("years", JInt years)]) w = (Return response, w') ->
  exists result,
    renew_domain settings remote domain years w = (Return result, w')
    /\ Json.lookup "domain" result = Some (JStr domain)
    /\ Json.lookup "years" result = Some (JInt years)
    /\ Json.lookup "success" result = Some (JBool true)
    /\ (forall m, Json.lookup "message" response = Some m ->
          Json.lookup "message" result = Some m)
    /\ (Json.lookup "message" response = None ->
          Json.lookup "message" result = Some (JStr "Domain renewed successfully"))
    /\ exists events,
         trace w' = (trace w ++ events)%list
         /\ calls_send req events /\ (1 <= calls events)%nat.
Proof.
  intros req Hreq. subst req.
  eexists. split; [unfold renew_domain, bind; rewrite Hreq; reflexivity|].
  do 3 (split; [reflexivity|]).
  split; [|split].
  - intros m Hm. cbn. unfold Json.get. now rewrite Hm.
  - intros Hm. cbn. unfold Json.get. now rewrite Hm.
  - destruct (request_run _ _ _ _ _ _ Hreq) as (events & Htr & Hsend & Hret).
    rewrite full_payload_years in Hsend.
    exists events. split; [exact Htr|]. split; [exact Hsend|].
    now destruct (Hret response eq_refl).
Qed.

Lemma validate_auth_code (response : dict) (resp : AuthCodeResponse.t) :
  Validate.AuthCodeResponse response = Some resp ->
  AuthCodeResponse.auth_code resp =
    match Json.lookup "auth_code" response with
    | Some (JStr code) => Some code
    | _ => None
    end.
Proof.
  unfold Validate.AuthCodeResponse, Validate.bind_opt.
  destruct (Validate.str_field "status" response); [|discriminate].
  destruct (Validate.opt_str_field "message" response); [|discriminate].
  unfold Validate.opt_str_field.
  destruct (Json.lookup "auth_code" response) as [[]|]; try discriminate;
    intros H; injection H as <-; reflexivity.
Qed.

(** C8.  [get_auth_code] posts to the auth-code endpoint of the domain;
    when the call succeeds it returns the auth-code string of the
    response, and the empty string when the response has no auth-code
    field. *)
Theorem get_auth_code_result
    (domain : string) (w w' : World) (response : dict) (resp : AuthCodeResponse.t) :
  let req := mkRequest "POST" ("/domain/getAuthCode/" ++ domain) (auth_payload settings) in
  _request settings remote "POST" ("/domain/getAuthCode/" ++ domain) None w
    = (Return response, w') ->
  Validate.AuthCodeResponse response = Some resp ->
  (forall code, Json.lookup "auth_code" response = Some (JStr code) ->
     get_auth_code settings remote domain w = (Return code, w'))
  /\ (Json.lookup "auth_code" response = None ->
        get_auth_code settings remote domain w = (Return "", w'))
  /\ exists events,
       trace w' = (trace w ++ events)%list
       /\ calls_send req events /\ (1 <= calls events)%nat.
Proof.
  intros req Hreq Hv. subst req.
  pose proof (validate_auth_code response resp Hv) as Hcode.
  assert (Hrun : get_auth_code settings remote domain w =
                 (Return (or_empty (AuthCodeResponse.auth_code resp)), w')).
  { unfold get_auth_code, bind. rewrite Hreq. unfold validated. now rewrite Hv. }
  split; [|split].
  - intros code Hl. rewrite Hrun, Hcode, Hl. now destruct code.
  - intros Hl. now rewrite Hrun, Hcode, Hl.
  - destruct (request_run _ _ _ _ _ _ Hreq) as (events & Htr & Hsend & Hret).
    exists events. split; [exact Htr|]. split; [exact Hsend|].
    now destruct (Hret response eq_refl).
Qed.


(** *** The tools *)

(** C3, amended.  With the structured logger, every tool call returns a
    [ToolResponse], whatever the client operation does: with [success]
    true and no error when the operation returns, and with [success]
    false, no data and as error the text of the exception when the
    operation raises.  That text is the message of a [PorkbunError],
    which is empty when the registrar sends an empty message. *)
Theorem tool_call_returns_response (c : ToolCall) (w : World) :
  structured_logging = true ->
  exists resp w',
    Tools.call settings remote c w = (Return resp, w')
    /\ match client_failure settings remote c w with
       | None => success resp = true /\ error resp = None
       | Some e =>
           success resp = false
           /\ error resp = Some (exn_str e)
           /\ data resp = None
       end.
Proof.
  intros Hlog.
  destruct c as [|domain|domain|domain years|tld];
    cbn [Tools.call client_failure];
    unfold Tools.list_domains, Tools.get_domain_info, Tools.get_auth_code,
      Tools.renew_domain, Tools.get_pricing, Tools.failure, try_except, raised.
  - unfold bind at 1.
    destruct (list_domains settings remote w) as [[a|e] w1];
      [|unfold logger_error; rewrite logged_structured by exact Hlog];
      cbn; do 2 eexists; (split; [reflexivity|]); cbn; auto.
  - unfold bind at 1.
    destruct (get_domain_info settings remote domain w) as [[a|e] w1];
      [|unfold logger_error; rewrite logged_structured by exact Hlog];
      cbn; do 2 eexists; (split; [reflexivity|]); cbn; auto.
  - unfold bind at 1.
    destruct (get_auth_code settings remote domain w) as [[a|e] w1];
      [|unfold logger_error; rewrite logged_structured by exact Hlog];
      cbn; do 2 eexists; (split; [reflexivity|]); cbn; auto.
  - unfold bind at 1.
    destruct (renew_domain settings remote domain years w) as [[a|e] w1];
      [|unfold logger_error; rewrite logged_structured by exact Hlog];
      cbn; do 2 eexists; (split; [reflexivity|]); cbn; auto.
  - unfold bind at 1.
    destruct (get_pricing settings remote tld w) as [[a|e] w1];
      [|unfold logger_error; rewrite logged_structured by exact Hlog];
      cbn; do 2 eexists; (split; [reflexivity|]); cbn; auto.
Qed.

(** *** The handle *)

Lemma attempt_once_open h req w :
  open_in h w ->
  exists res, attempt_once remote h req w = (res, extend w [Call h req]).
Proof.
  intros Ho. unfold attempt_once. unfold bind at 1. unfold client_request.
  rewrite Ho. change (record (Call h req) w) with (extend w [Call h req]).
  destruct (remote (calls (trace w)) req); [eexists; reflexivity|].
  eexists. apply stateless_run.
  repeat (stateless_step || solve [auto with stateless]).
Qed.

(** With at least one attempt allowed, [_request] sends its first call
    through the handle [_ensure_client] hands out. *)
Lemma request_first_call (method endpoint : string) (payload : option dict) (w : World) :
  wf w = true ->
  0 <= max_retries settings ->
  exists res w' events,
    _request settings remote method endpoint payload w = (res, w')
    /\ trace w' =
         (trace w ++ Call (handle_of w)
                       (mkRequest method endpoint (full_payload settings payload))
                     :: events)%list.
Proof.
  intros Hwf Hmax. unfold _request, bind. rewrite ensure_client_eq.
  rewrite range_cons by assumption.
  destruct (retry_loop settings remote (handle_of w)
              (mkRequest method endpoint (full_payload settings payload))
              (0 :: map Z.of_nat (seq 1 (Z.to_nat (max_retries settings))))
              (ensured w)) as [res w'] eqn:Hrun.
  exists res, w'.
  enough (exists events,
             trace w' = (trace w ++ Call (handle_of w)
                           (mkRequest method endpoint (full_payload settings payload))
                         :: events)%list) as [events He]
    by (exists events; split; [reflexivity|exact He]).
  cbn [retry_loop] in Hrun. unfold try_except in Hrun.
  destruct (attempt_once_open (handle_of w)
              (mkRequest method endpoint (full_payload settings payload))
              (ensured w) (wf_open w Hwf)) as [r1 Hc].
  rewrite Hc in Hrun.
  assert (Hstop : forall r, (r, extend (ensured w)
                     [Call (handle_of w)
                        (mkRequest method endpoint (full_payload settings payload))])
                    = (res, w') ->
            exists events,
              trace w' = (trace w ++ Call (handle_of w)
                            (mkRequest method endpoint (full_payload settings payload))
                          :: events)%list).
  { intros r Hr. injection Hr as <- <-. exists [].
    now rewrite trace_extend, trace_ensured. }
  assert (Hnext : forall c, (sleep (backoff 0) ;;; c)
                    (extend (ensured w)
                       [Call (handle_of w)
                          (mkRequest method endpoint (full_payload settings payload))])
                    = (res, w') ->
            c = retry_loop settings remote (handle_of w)
                  (mkRequest method endpoint (full_payload settings payload))
                  (map Z.of_nat (seq 1 (Z.to_nat (max_retries settings)))) ->
            exists events,
              trace w' = (trace w ++ Call (handle_of w)
                            (mkRequest method endpoint (full_payload settings payload))
                          :: events)%list).
  { intros c Hn ->. unfold bind, sleep in Hn.
    apply retry_loop_run in Hn as (events & -> & _ & _).
    exists (Sleep (backoff 0) :: events).
    rewrite !trace_extend, record_extend, trace_extend, trace_extend, trace_ensured.
    now rewrite <- !app_assoc. }
  destruct r1 as [d|e]; [now apply (Hstop _ Hrun)|].
  destruct e; cbn [on_failure] in Hrun; try (now apply (Hstop _ Hrun)).
  - warned_in Hrun Hstop.
    destruct (0 <? max_retries settings); [|now apply (Hstop _ Hrun)].
    now apply (Hnext _ Hrun).
  - warned_in Hrun Hstop.
    destruct (0 <? max_retries settings); [|now apply (Hstop _ Hrun)].
    now apply (Hnext _ Hrun).
Qed.

Lemma close_eq (w : World) :
  close w =
    (Return tt,
     match _client w with
     | Some h => mkWorld None (created w) (h :: released w) (trace w)
     | None => w
     end).
Proof. unfold close. now destruct (_client w). Qed.

(** C10.  [close] never fails, leaves [_client] at [None], and changes
    nothing when [_client] already is [None] (never opened, or closed
    before), so closing twice is closing once.  After it the handles stay
    consistent, [_ensure_client] builds a new handle that is not among the
    released ones, and the next request or pricing call is sent through
    that new handle. *)
Theorem close_is_idempotent_and_reopens (w : World) :
  let closed := snd (close w) in
  wf w = true ->
  fst (close w) = Return tt
  /\ _client closed = None
  /\ (_client w = None -> closed = w)
  /\ close closed = (Return tt, closed)
  /\ wf closed = true
  /\ (exists reopened,
        _ensure_client closed = (Return (created closed), reopened)
        /\ _client reopened = Some (created closed)
        /\ ~ In (created closed) (released reopened))
  /\ (forall method endpoint payload,
        0 <= max_retries settings ->
        exists res w' events,
          _request settings remote method endpoint payload closed = (res, w')
          /\ trace w' =
               (trace closed
                ++ Call (created closed)
                     (mkRequest method endpoint (full_payload settings payload))
                   :: events)%list)
  /\ (forall tld,
        exists res w',
          get_pricing settings remote tld closed = (res, w')
          /\ trace w' =
               (trace closed ++ [Call (created closed) (pricing_request settings)])%list).
Proof.
  intros closed Hwf. subst closed. rewrite close_eq. cbn [fst snd].
  set (closed := match _client w with
                 | Some h => mkWorld None (created w) (h :: released w) (trace w)
                 | None => w
                 end).
  assert (Hnone : _client closed = None).
  { subst closed. now destruct (_client w) eqn:E. }
  assert (Hwfc : wf closed = true).
  { subst closed. unfold wf in *. destruct (_client w) as [h|] eqn:E; [|now rewrite E].
    cbn [released created _client forallb].
    apply andb_prop in Hwf as [Hrel Hcur]. apply andb_prop in Hcur as [Hlt _].
    now rewrite Hlt, Hrel. }
  assert (Hh : handle_of closed = created closed).
  { unfold handle_of. now rewrite Hnone. }
  split; [reflexivity|]. split; [exact Hnone|].
  split. { intros E. subst closed. now rewrite E. }
  split. { rewrite close_eq. now rewrite Hnone. }
  split; [exact Hwfc|].
  split; [|split].
  - eexists. split; [|split].
    + rewrite ensure_client_eq, Hh. reflexivity.
    + unfold ensured. now rewrite Hnone.
    + pose proof (wf_open closed Hwfc) as Ho. rewrite Hh in Ho.
      unfold open_in in Ho. intros Hin.
      assert (Hex : existsb (Nat.eqb (created closed)) (released (ensured closed)) = true).
      { apply existsb_exists. exists (created closed). split; [exact Hin|].
        apply Nat.eqb_refl. }
      congruence.
  - intros method endpoint payload Hmax. rewrite <- Hh.
    now apply request_first_call.
  - intros tld. destruct (get_pricing_one_call tld closed Hwfc) as [res Hrun].
    exists res. eexists. split; [exact Hrun|].
    now rewrite trace_extend, trace_ensured, Hh.
Qed.


(** *** More on the retry loop *)

(** Failed attempts below [max_retries] are each slept on and skipped. *)
Lemma retry_loop_skip h req :
  structured_logging = true ->
  forall k a rest w,
    open_in h w ->
    (a + k <= Z.to_nat (max_retries settings))%nat ->
    0 <= max_retries settings ->
    (forall i, (i < k)%nat -> is_failure (remote (calls (trace w) + i) req) = true) ->
    retry_loop settings remote h req (map Z.of_nat (seq a k) ++ rest) w =
      retry_loop settings remote h req rest
        (extend w (retried h req (map Z.of_nat (seq a k)))).
Proof.
  intros Hlog.
  induction k as [|k IH]; intros a rest w Ho Hak Hmax Hfail.
  - cbn. now rewrite extend_nil.
  - cbn [seq map app]. rewrite retry_loop_failure; auto.
    2:{ specialize (Hfail 0%nat (Nat.lt_0_succ _)). now rewrite Nat.add_0_r in Hfail. }
    replace (Z.of_nat a <? max_retries settings) with true
      by (symmetry; apply Z.ltb_lt; lia).
    rewrite IH; auto.
    + now rewrite extend_extend.
    + lia.
    + intros i Hi. rewrite trace_extend, calls_app.
      change (calls [Call h req; Sleep (backoff (Z.of_nat a))]) with 1%nat.
      replace (calls (trace w) + 1 + i)%nat with (calls (trace w) + S i)%nat by lia.
      apply Hfail. lia.
Qed.

(** With the structured logger, when the first [k] attempts fail, [k] at
    most [max_retries], and the next one meets a success envelope,
    [_request] returns that envelope after [k + 1] calls, having slept
    0.5 x 2^attempt seconds after each of the failed attempts 0, ...,
    [k - 1], in that order. *)
Theorem request_recovers_after_failures
    (w : World) (method endpoint : string) (payload : option dict)
    (k : nat) (r : Response) (d : dict) :
  let req := mkRequest method endpoint (full_payload settings payload) in
  let h := handle_of w in
  let n := calls (trace w) in
  structured_logging = true ->
  wf w = true ->
  (k <= Z.to_nat (max_retries settings))%nat ->
  0 <= max_retries settings ->
  (forall i, (i < k)%nat -> is_failure (remote (n + i)%nat req) = true) ->
  remote (n + k)%nat req = Answered r ->
  is_success r = true ->
  json_body r = inr (JDict d) ->
  is_success_envelope d ->
  exists w' delays,
    _request settings remote method endpoint payload w = (Return d, w')
    /\ trace w' = (trace w ++ retried h req (range (Z.of_nat k)) ++ [Call h req])%list
    /\ calls (trace w') = (n + (k + 1))%nat
    /\ sleeps (trace w') = (sleeps (trace w) ++ delays)%list
    /\ exponential_delays (Z.of_nat k) delays.
Proof.
  intros req h n Hlog Hwf Hk Hmax Hfail Hr Hs Hb (s & Hst & Hup). subst req h n.
  set (req := mkRequest method endpoint (full_payload settings payload)) in *.
  assert (Hrun : _request settings remote method endpoint payload w =
                 (Return d,
                  extend (ensured w)
                    (retried (handle_of w) req (range (Z.of_nat k))
                     ++ [Call (handle_of w) req]))).
  { unfold _request, bind. rewrite ensure_client_eq. fold req.
    unfold range at 1.
    replace (Z.to_nat (max_retries settings + 1))
      with (k + S (Z.to_nat (max_retries settings) - k))%nat by lia.
    rewrite seq_app, map_app.
    rewrite retry_loop_skip; auto.
    - cbn [seq map Nat.add].
      rewrite (retry_loop_envelope _ _ _ _ _ r d s); auto.
      + rewrite Hup. cbn [String.eqb].
        replace (String.eqb "SUCCESS" "SUCCESS") with true by reflexivity.
        rewrite extend_extend. unfold range. now rewrite Nat2Z.id.
      + now apply open_in_extend, wf_open.
      + rewrite trace_extend, trace_ensured, calls_app, calls_retried.
        now rewrite length_map, length_seq.
      + now apply get_status_str.
    - now apply wf_open.
    - rewrite trace_ensured. exact Hfail. }
  eexists. exists (map backoff (range (Z.of_nat k))). split; [exact Hrun|].
  rewrite trace_extend, trace_ensured.
  split; [reflexivity|]. split; [|split].
  - rewrite !calls_app, calls_retried. unfold range.
    rewrite length_map, length_seq, Nat2Z.id. reflexivity.
  - rewrite !sleeps_app, sleeps_retried. cbn. now rewrite app_nil_r.
  - apply backoff_delays.
Qed.

(** A run of the loop over attempts [a .. max_retries] on an open handle
    is some failed attempts, each slept on, and one last call. *)
Lemma retry_loop_shape h req :
  forall n a w res w',
    open_in h w ->
    (a + n)%nat = Z.to_nat (max_retries settings) ->
    0 <= max_retries settings ->
    retry_loop settings remote h req (map Z.of_nat (seq a (S n))) w = (res, w') ->
    exists j,
      (j <= n)%nat
      /\ w' = extend w (retried h req (map Z.of_nat (seq a j)) ++ [Call h req]).
Proof.
  induction n as [|n IH]; intros a w res w' Ho Han Hmax Hrun.
  - exists 0%nat. split; [lia|]. cbn [seq map retried flat_map app].
    cbn [seq map retry_loop] in Hrun. unfold try_except in Hrun.
    destruct (attempt_once_open h req w Ho) as [r1 Hc]. rewrite Hc in Hrun.
    destruct r1 as [d|e]; [now injection Hrun as _ <-|].
    assert (Hstop : forall r, (r, extend w [Call h req]) = (res, w') ->
              w' = extend w [Call h req]).
    { intros r Hr. now injection Hr as _ <-. }
    destruct e; cbn [on_failure] in Hrun; try (now apply (Hstop _ Hrun)).
    + warned_in Hrun Hstop.
      replace (Z.of_nat a <? max_retries settings) with false in Hrun
        by (symmetry; apply Z.ltb_ge; lia).
      now apply (Hstop _ Hrun).
    + warned_in Hrun Hstop.
      replace (Z.of_nat a <? max_retries settings) with false in Hrun
        by (symmetry; apply Z.ltb_ge; lia).
      now apply (Hstop _ Hrun).
  - change (seq a (S (S n))) with (a :: seq (S a) (S n)) in Hrun.
    cbn [map retry_loop] in Hrun. unfold try_except in Hrun.
    destruct (attempt_once_open h req w Ho) as [r1 Hc]. rewrite Hc in Hrun.
    assert (Hstop : forall r, (r, extend w [Call h req]) = (res, w') ->
              exists j, (j <= S n)%nat
                /\ w' = extend w (retried h req (map Z.of_nat (seq a j)) ++ [Call h req])).
    { intros r Hr. injection Hr as _ <-. exists 0%nat. split; [lia|reflexivity]. }
    assert (Hnext : retry_loop settings remote h req (map Z.of_nat (seq (S a) (S n)))
                      (extend w [Call h req; Sleep (backoff (Z.of_nat a))]) = (res, w') ->
              exists j, (j <= S n)%nat
                /\ w' = extend w (retried h req (map Z.of_nat (seq a j)) ++ [Call h req])).
    { intros Hn. apply IH in Hn as (j & Hj & ->); auto; [|lia].
      exists (S j). split; [lia|]. now rewrite extend_extend. }
    destruct r1 as [d|e]; [now apply (Hstop _ Hrun)|].
    destruct e; cbn [on_failure] in Hrun; try (now apply (Hstop _ Hrun)).
    + warned_in Hrun Hstop.
      destruct (Z.of_nat a <? max_retries settings); [|now apply (Hstop _ Hrun)].
      unfold bind, sleep in Hrun. rewrite record_extend, extend_extend in Hrun.
      now apply Hnext.
    + warned_in Hrun Hstop.
      destruct (Z.of_nat a <? max_retries settings); [|now apply (Hstop _ Hrun)].
      unfold bind, sleep in Hrun. rewrite record_extend, extend_extend in Hrun.
      now apply Hnext.
Qed.

Lemma request_world_shape
    (w w' : World) (method endpoint : string) (payload : option dict)
    (res : Result dict) :
  wf w = true ->
  0 <= max_retries settings ->
  _request settings remote method endpoint payload w = (res, w') ->
  exists j,
    (j <= Z.to_nat (max_retries settings))%nat
    /\ w' = extend (ensured w)
              (retried (handle_of w)
                 (mkRequest method endpoint (full_payload settings payload))
                 (range (Z.of_nat j))
               ++ [Call (handle_of w)
                     (mkRequest method endpoint (full_payload settings payload))]).
Proof.
  intros Hwf Hmax Hrun.
  unfold _request, bind in Hrun. rewrite ensure_client_eq in Hrun.
  unfold range in Hrun.
  replace (Z.to_nat (max_retries settings + 1))
    with (S (Z.to_nat (max_retries settings))) in Hrun by lia.
  apply retry_loop_shape in Hrun as (j & Hj & ->); auto using wf_open.
  exists j. split; [exact Hj|]. unfold range. now rewrite Nat2Z.id.
Qed.

(** Whatever the registrar does, a run of [_request] is [j] attempts that
    failed and were slept on, [j] at most [max_retries], followed by one
    last call: it sends at most [max_retries + 1] calls, one more than it
    sleeps, and the delays are those of attempts 0, ..., [j - 1]. *)
Theorem request_run_shape
    (w w' : World) (method endpoint : string) (payload : option dict)
    (res : Result dict) :
  let req := mkRequest method endpoint (full_payload settings payload) in
  let h := handle_of w in
  wf w = true ->
  0 <= max_retries settings ->
  _request settings remote method endpoint payload w = (res, w') ->
  exists j,
    0 <= j <= max_retries settings
    /\ trace w' = (trace w ++ retried h req (range j) ++ [Call h req])%list
    /\ Z.of_nat (calls (trace w')) = Z.of_nat (calls (trace w)) + j + 1
    /\ sleeps (trace w') = (sleeps (trace w) ++ map backoff (range j))%list.
Proof.
  intros req h Hwf Hmax Hrun. subst req h.
  destruct (request_world_shape w w' method endpoint payload res Hwf Hmax Hrun)
    as (j & Hj & ->).
  exists (Z.of_nat j). split; [lia|].
  rewrite trace_extend, trace_ensured.
  split; [reflexivity|]. split.
  - rewrite !calls_app, calls_retried. unfold range.
    rewrite length_map, length_seq, Nat2Z.id. cbn. lia.
  - rewrite !sleeps_app, sleeps_retried. cbn. now rewrite app_nil_r.
Qed.

(** A 2xx response that cannot be read as an envelope is not retried and
    not turned into a [PorkbunError]: a body that is not JSON lets the
    [JSONDecodeError] through, and a body that is not a dict, or whose
    status is not a string, lets an [AttributeError] through, after the one
    call. *)
Theorem request_unreadable_body_not_retried
    (w : World) (method endpoint : string) (payload : option dict) (r : Response) :
  let req := mkRequest method endpoint (full_payload settings payload) in
  wf w = true ->
  0 <= max_retries settings ->
  remote (calls (trace w)) req = Answered r ->
  is_success r = true ->
  exists w',
    trace w' = (trace w ++ [Call (handle_of w) req])%list
    /\ (forall t, json_body r = inl t ->
          _request settings remote method endpoint payload w =
            (Raise (JSONDecodeError t), w'))
    /\ (forall v t, json_body r = inr v -> unreadable v = Some t ->
          _request settings remote method endpoint payload w =
            (Raise (AttributeError t), w')).
Proof.
  intros req Hwf Hmax Hr Hs. subst req.
  exists (extend (ensured w)
            [Call (handle_of w) (mkRequest method endpoint (full_payload settings payload))]).
  split; [now rewrite trace_extend, trace_ensured|].
  assert (Ho := wf_open w Hwf).
  rewrite <- (trace_ensured w) in Hr.
  split.
  - intros t Hb. unfold _request, bind. rewrite ensure_client_eq.
    rewrite range_cons by assumption. cbn [retry_loop]. unfold try_except.
    unfold attempt_once, bind, client_request, raise_for_status, response_json.
    rewrite Ho, Hr, Hs. cbn. rewrite Hb. reflexivity.
  - intros v t Hb Hv. unfold _request, bind. rewrite ensure_client_eq.
    rewrite range_cons by assumption. cbn [retry_loop]. unfold try_except.
    unfold attempt_once, bind, client_request, raise_for_status, response_json.
    rewrite Ho, Hr, Hs. cbn. rewrite Hb. cbn.
    destruct v; cbn in Hv; try (injection Hv as <-; reflexivity).
    destruct (Json.get items "status" (JStr "")); cbn;
      try discriminate; injection Hv as <-; reflexivity.
Qed.


(** *** The time slept *)

Lemma total_app (a b : list Q) : (total (a ++ b) == total a + total b)%Q.
Proof.
  induction a as [|x a IH]; cbn.
  - now rewrite Qplus_0_l.
  - unfold total in IH. rewrite IH. now rewrite Qplus_assoc.
Qed.

(** The delays of attempts 0, ..., [k - 1] add up to [(2^k - 1) / 2]
    seconds. *)
Lemma total_backoff (k : nat) :
  (total (map backoff (range (Z.of_nat k))) == (inject_Z (2 ^ Z.of_nat k) - 1) * (1 # 2))%Q.
Proof.
  induction k as [|k IH]; [reflexivity|].
  rewrite Nat2Z.inj_succ. unfold Z.succ.
  rewrite range_succ by lia. rewrite map_app, total_app, IH.
  cbn [map total fold_right]. unfold backoff.
  rewrite Z.pow_add_r by lia. change (2 ^ 1) with 2.
  rewrite inject_Z_mult. change (inject_Z 2) with 2%Q. ring.
Qed.

(** With settings in their bounds, the delays of one run of [_request]
    are 0.5 x 2^attempt seconds for the attempts 0, ..., [j - 1], where
    [j], the number of delays, is at most [max_retries]; they add up to
    [(2^j - 1) / 2] seconds, which is at most 15.5. *)
Theorem request_total_sleep_bounded
    (w w' : World) (method endpoint : string) (payload : option dict)
    (res : Result dict) :
  wf w = true ->
  valid_settings settings ->
  _request settings remote method endpoint payload w = (res, w') ->
  exists delays,
    sleeps (trace w') = (sleeps (trace w) ++ delays)%list
    /\ Z.of_nat (List.length delays) <= max_retries settings
    /\ exponential_delays (Z.of_nat (List.length delays)) delays
    /\ (total delays == (inject_Z (2 ^ Z.of_nat (List.length delays)) - 1) * (1 # 2))%Q
    /\ (total delays <= 31 # 2)%Q.
Proof.
  intros Hwf [Hlo Hhi] Hrun.
  destruct (request_world_shape w w' method endpoint payload res Hwf Hlo Hrun)
    as (j & Hj & ->).
  exists (map backoff (range (Z.of_nat j))).
  assert (Hlen : List.length (map backoff (range (Z.of_nat j))) = j).
  { unfold range. now rewrite !length_map, length_seq, Nat2Z.id. }
  rewrite Hlen.
  split.
  { rewrite trace_extend, trace_ensured, !sleeps_app, sleeps_retried.
    cbn. now rewrite app_nil_r. }
  split; [lia|]. split; [apply backoff_delays|].
  pose proof (total_backoff j) as Hsum.
  split; [exact Hsum|]. rewrite Hsum.
  assert (Hpow : 2 ^ Z.of_nat j <= 2 ^ 5) by (apply Z.pow_le_mono_r; lia).
  change (2 ^ 5) with 32 in Hpow.
  generalize dependent (2 ^ Z.of_nat j). intros p _ Hp.
  unfold Qle, Qmult, Qminus, Qplus, Qopp, inject_Z. cbn. lia.
Qed.

(** *** The handle across requests *)

Lemma request_world (method endpoint : string) (payload : option dict) (w : World) :
  exists events,
    snd (_request settings remote method endpoint payload w) = extend (ensured w) events.
Proof.
  unfold _request, bind. rewrite ensure_client_eq.
  destruct (retry_loop settings remote (handle_of w)
              (mkRequest method endpoint (full_payload settings payload))
              (range (max_retries settings + 1)) (ensured w)) as [res w'] eqn:Hrun.
  apply retry_loop_run in Hrun as (events & -> & _). now exists events.
Qed.

Lemma ensured_handles (w : World) :
  _client (ensured w) = Some (handle_of w)
  /\ released (ensured w) = released w
  /\ (forall h, _client w = Some h -> created (ensured w) = created w)
  /\ (_client w = None -> created (ensured w) = S (created w)).
Proof.
  unfold ensured, handle_of. destruct (_client w) as [h|] eqn:E; cbn.
  - repeat split; auto. discriminate.
  - repeat split; auto. discriminate.
Qed.

Lemma extended_handles (w : World) (events : list Event) :
  wf w = true ->
  _client (extend (ensured w) events) = Some (handle_of w)
  /\ released (extend (ensured w) events) = released w
  /\ (forall h, _client w = Some h -> created (extend (ensured w) events) = created w)
  /\ (_client w = None -> created (extend (ensured w) events) = S (created w))
  /\ wf (extend (ensured w) events) = true.
Proof.
  intros Hwf. destruct (ensured_handles w) as (Hc & Hr & Hsame & Hnew).
  repeat split; auto.
  change (wf (ensured w) = true). now apply wf_ensured.
Qed.

(** A request or a pricing call never releases a handle and never
    replaces the one in use: afterwards [_client] is the handle the call
    went through, an open client has been reused without building a new
    one, a closed client has built exactly one, and the handles are still
    consistent. *)
Theorem requests_keep_the_handle
    (w : World) (method endpoint : string) (payload : option dict)
    (tld : option string) :
  wf w = true ->
  forall w',
    w' = snd (_request settings remote method endpoint payload w)
    \/ w' = snd (get_pricing settings remote tld w) ->
    _client w' = Some (handle_of w)
    /\ released w' = released w
    /\ (forall h, _client w = Some h -> created w' = created w)
    /\ (_client w = None -> created w' = S (created w))
    /\ wf w' = true.
Proof.
  intros Hwf w' Hw'.
  assert (Hext : exists events, w' = extend (ensured w) events).
  { destruct Hw' as [-> | ->].
    - apply request_world.
    - destruct (get_pricing_one_call tld w Hwf) as [res Hrun].
      rewrite Hrun. now eexists. }
  destruct Hext as [events ->]. now apply extended_handles.
Qed.

(** Entering the context, sending a request and leaving the context: the
    request goes through the handle that entering provides, and leaving
    releases that handle and leaves the client closed and consistent. *)
Theorem context_manager_releases
    (w : World) (method endpoint : string) (payload : option dict) :
  let entered := snd (__aenter__ w) in
  let used := snd (_request settings remote method endpoint payload entered) in
  let left := snd (__aexit__ used) in
  wf w = true ->
  fst (__aenter__ w) = Return tt
  /\ _client entered = Some (handle_of w)
  /\ _client used = Some (handle_of w)
  /\ fst (__aexit__ used) = Return tt
  /\ _client left = None
  /\ released left = handle_of w :: released w
  /\ wf left = true.
Proof.
  intros entered used left Hwf.
  assert (He : __aenter__ w = (Return tt, ensured w)).
  { unfold __aenter__, bind. now rewrite ensure_client_eq. }
  assert (Hentered : entered = ensured w) by (subst entered; now rewrite He).
  destruct (ensured_handles w) as (Hc & Hr & _ & _).
  assert (Hwfe : wf entered = true) by (rewrite Hentered; now apply wf_ensured).
  assert (Hhe : handle_of entered = handle_of w).
  { unfold handle_of at 1. now rewrite Hentered, Hc. }
  destruct (request_world method endpoint payload entered) as [events Hused].
  fold used in Hused.
  destruct (extended_handles entered events Hwfe) as (Hcu & Hru & _ & _ & Hwfu).
  rewrite <- Hused in Hcu, Hru, Hwfu.
  rewrite Hhe in Hcu. rewrite Hentered, Hr in Hru.
  assert (Hx : __aexit__ used =
               (Return tt,
                mkWorld None (created used) (handle_of w :: released used) (trace used))).
  { unfold __aexit__. rewrite close_eq. now rewrite Hcu. }
  split; [now rewrite He|]. split; [now rewrite Hentered|]. split; [exact Hcu|].
  split; [now rewrite Hx|].
  subst left. rewrite Hx. cbn [snd _client released].
  split; [reflexivity|]. split; [now rewrite Hru|].
  unfold wf in *. cbn [released created _client forallb].
  rewrite Hcu in Hwfu.
  apply andb_prop in Hwfu as [Hrel Hcur]. apply andb_prop in Hcur as [Hlt _].
  now rewrite Hlt, Hrel.
Qed.


(** *** The payload sent *)

Lemma lookup_set_same (k : string) (v : json) (d : dict) :
  Json.lookup k (Json.set k v d) = Some v.
Proof.
  induction d as [|[k' v'] rest IH]; cbn.
  - now rewrite String.eqb_refl.
  - destruct (String.eqb k' k) eqn:E; cbn; rewrite E; [reflexivity|exact IH].
Qed.

Lemma lookup_set_other (k k' : string) (v : json) (d : dict) :
  k' <> k -> Json.lookup k (Json.set k' v d) = Json.lookup k d.
Proof.
  intros Hne. apply String.eqb_neq in Hne.
  induction d as [|[k0 v0] rest IH]; cbn.
  - now rewrite Hne.
  - destruct (String.eqb k0 k') eqn:E; cbn.
    + apply String.eqb_eq in E. subst k0. now rewrite Hne.
    + destruct (String.eqb k0 k); [reflexivity|exact IH].
Qed.

Lemma lookup_absent {A : Type} (k : string) (d : list (string * A)) :
  ~ In k (map fst d) -> Json.lookup k d = None.
Proof.
  induction d as [|[k' v'] rest IH]; intros Hin; [reflexivity|]. cbn.
  destruct (String.eqb_spec k' k) as [->|Hne].
  - exfalso. apply Hin. now left.
  - apply IH. intros H. apply Hin. now right.
Qed.

Lemma lookup_update (k : string) (other : dict) :
  NoDup (map fst other) ->
  forall d,
    Json.lookup k (Json.update d other) =
      match Json.lookup k other with
      | Some v => Some v
      | None => Json.lookup k d
      end.
Proof.
  unfold Json.update.
  induction other as [|[k1 v1] rest IH]; intros Hnd d; [reflexivity|].
  cbn [fold_left fst snd Json.lookup]. inversion Hnd as [|? ? Hnotin Hrest]; subst.
  rewrite (IH Hrest).
  destruct (String.eqb_spec k1 k) as [->|Hne].
  - rewrite (lookup_absent k rest Hnotin). apply lookup_set_same.
  - destruct (Json.lookup k rest); [reflexivity|]. now apply lookup_set_other.
Qed.

(** The body of a call holds, for every key, the value of the payload
    when the payload has the key, and the value of the auth payload
    otherwise: the credentials are always sent unless the payload itself
    has a key of the same name, which then takes their place. *)
Theorem full_payload_lookup (payload : dict) (k : string) :
  NoDup (map fst payload) ->
  Json.lookup k (full_payload settings (Some payload)) =
    match Json.lookup k payload with
    | Some v => Some v
    | None => Json.lookup k (auth_payload settings)
    end.
Proof.
  intros Hnd. destruct payload as [|kv rest]; [reflexivity|].
  cbn [full_payload]. now apply lookup_update.
Qed.

(** *** Models and their dict forms *)

Lemma traverse_map {A B : Type} (f : A -> option B) (g : B -> A) (ys : list B) :
  (forall y, f (g y) = Some y) -> Validate.traverse f (map g ys) = Some ys.
Proof.
  intros Hfg. induction ys as [|y ys IH]; [reflexivity|].
  cbn. rewrite Hfg. cbn. rewrite IH. reflexivity.
Qed.

Lemma traverse_some {A B : Type} (f : A -> option B) (xs : list A) (ys : list B) :
  Validate.traverse f xs = Some ys -> Forall2 (fun x y => f x = Some y) xs ys.
Proof.
  revert ys. induction xs as [|x xs IH]; intros ys H; cbn in H.
  - injection H as <-. constructor.
  - destruct (f x) as [y|] eqn:Hx; [|discriminate]. cbn in H.
    destruct (Validate.traverse f xs) as [ys'|]; [|discriminate]. cbn in H.
    injection H as <-. constructor; auto.
Qed.

Lemma traverse_none {A B : Type} (f : A -> option B) (xs : list A) (x : A) :
  In x xs -> f x = None -> Validate.traverse f xs = None.
Proof.
  intros Hin Hx. induction xs as [|x0 xs IH]; [destruct Hin|]. cbn.
  destruct Hin as [->|Hin].
  - now rewrite Hx.
  - destruct (f x0); [|reflexivity]. cbn. now rewrite (IH Hin).
Qed.

(** The dict a tool builds from a [Domain] validates back to that
    [Domain]: no field is lost or changed on the way out. *)
Theorem domain_dict_round_trip (d : Domain.t) :
  Validate.Domain (JDict (_domain_to_dict d)) = Some d.
Proof.
  destruct d as [domain status tld [c|] [e|] [p|] [[|]|] [[|]|]]; reflexivity.
Qed.

(** The dict a tool builds from a [PricingInfo] validates back to it. *)
Theorem pricing_dict_round_trip (p : PricingInfo.t) :
  Validate.PricingInfo (JDict (_pricing_to_dict p)) = Some p.
Proof.
  destruct p as [tld [r|] [n|] [t|]]; reflexivity.
Qed.

Lemma validate_domains_status (d : dict) (r : DomainsResponse.t) :
  Validate.DomainsResponse d = Some r ->
  Json.lookup "status" d = Some (JStr (DomainsResponse.status r))
  /\ match Json.lookup "domains" d with
     | None => DomainsResponse.domains r = []
     | Some (JList xs) =>
         Validate.traverse Validate.Domain xs = Some (DomainsResponse.domains r)
     | Some _ => False
     end.
Proof.
  unfold Validate.DomainsResponse, Validate.bind_opt, Validate.str_field.
  destruct (Json.lookup "status" d) as [[]|]; try discriminate.
  destruct (Validate.opt_str_field "message" d); [|discriminate].
  destruct (Json.lookup "domains" d) as [[]|]; try discriminate.
  - destruct (Validate.traverse Validate.Domain items) eqn:Ht; [|discriminate].
    intros H. injection H as <-. cbn. now split.
  - intros H. injection H as <-. cbn. now split.
Qed.

(** [list_domains] keeps the records of the response in their order, one
    [Domain] for each, gives the empty list when the response has no
    domains field, and raises pydantic's [ValidationError] for the whole
    call as soon as one record is not a valid [Domain]. *)
Theorem list_domains_validates_every_record (w w' : World) (d : dict) :
  _request settings remote "POST" "/domain/list/all" None w = (Return d, w') ->
  (forall r, Validate.DomainsResponse d = Some r ->
     list_domains settings remote w = (Return (DomainsResponse.domains r), w')
     /\ (Json.lookup "domains" d = None -> DomainsResponse.domains r = [])
     /\ (forall xs, Json.lookup "domains" d = Some (JList xs) ->
           Forall2 (fun x dm => Validate.Domain x = Some dm) xs
             (DomainsResponse.domains r)))
  /\ (forall xs x, Json.lookup "domains" d = Some (JList xs) ->
        In x xs -> Validate.Domain x = None ->
        list_domains settings remote w =
          (Raise (ValidationError (validation_text "DomainsResponse" (JDict d))), w')).
Proof.
  intros Hreq. split.
  - intros r Hv. split; [|split].
    + unfold list_domains, bind. rewrite Hreq. unfold validated. now rewrite Hv.
    + intros Hl. apply validate_domains_status in Hv as [_ Hd]. now rewrite Hl in Hd.
    + intros xs Hl. apply validate_domains_status in Hv as [_ Hd]. rewrite Hl in Hd.
      now apply traverse_some.
  - intros xs x Hl Hin Hx.
    assert (Hv : Validate.DomainsResponse d = None).
    { unfold Validate.DomainsResponse, Validate.bind_opt.
      destruct (Validate.str_field "status" d); [|reflexivity].
      destruct (Validate.opt_str_field "message" d); [|reflexivity].
      now rewrite Hl, (traverse_none _ xs x Hin Hx). }
    unfold list_domains, bind. rewrite Hreq. unfold validated. now rewrite Hv.
Qed.

(** The models [list_domains] and [get_auth_code] build from what
    [_request] returned always have a true [success] property: the status
    that [_request] checked is the status of the model. *)
Theorem returned_response_is_success
    (w w' : World) (method endpoint : string) (payload : option dict) (d : dict) :
  _request settings remote method endpoint payload w = (Return d, w') ->
  (forall r, Validate.DomainsResponse d = Some r ->
     PorkbunResponse_success (DomainsResponse.status r) = true)
  /\ (forall r, Validate.AuthCodeResponse d = Some r ->
        PorkbunResponse_success (AuthCodeResponse.status r) = true).
Proof.
  intros Hreq.
  destruct (request_run _ _ _ _ _ _ Hreq) as (events & _ & _ & Hret).
  destruct (Hret d eq_refl) as (_ & s & Hg & Hup).
  unfold PorkbunResponse_success. split.
  - intros r Hv. apply validate_domains_status in Hv as [Hst _].
    unfold Json.get in Hg. rewrite Hst in Hg. injection Hg as ->.
    rewrite Hup. reflexivity.
  - intros r Hv.
    unfold Validate.AuthCodeResponse, Validate.bind_opt, Validate.str_field in Hv.
    unfold Json.get in Hg.
    destruct (Json.lookup "status" d) as [[]|]; try discriminate.
    destruct (Validate.opt_str_field "message" d); [|discriminate].
    destruct (Validate.opt_str_field "auth_code" d); [|discriminate].
    injection Hv as <-. cbn. injection Hg as ->. rewrite Hup. reflexivity.
Qed.

(** A null auth code is returned as the empty string, and an auth code
    that is neither a string nor null makes [get_auth_code] raise
    pydantic's [ValidationError] instead of returning. *)
Theorem get_auth_code_null_or_invalid
    (domain : string) (w w' : World) (d : dict) :
  _request settings remote "POST" ("/domain/getAuthCode/" ++ domain) None w
    = (Return d, w') ->
  (forall resp, Validate.AuthCodeResponse d = Some resp ->
     Json.lookup "auth_code" d = Some JNull ->
     get_auth_code settings remote domain w = (Return "", w'))
  /\ (forall v, Json.lookup "auth_code" d = Some v ->
        v <> JNull -> (forall code, v <> JStr code) ->
        get_auth_code settings remote domain w =
          (Raise (ValidationError (validation_text "AuthCodeResponse" (JDict d))), w')).
Proof.
  intros Hreq. split.
  - intros resp Hv Hl. unfold get_auth_code, bind. rewrite Hreq.
    unfold validated. rewrite Hv. cbn.
    now rewrite (validate_auth_code d resp Hv), Hl.
  - intros v Hl Hnull Hstr.
    assert (Hv : Validate.AuthCodeResponse d = None).
    { unfold Validate.AuthCodeResponse, Validate.bind_opt.
      destruct (Validate.str_field "status" d); [|reflexivity].
      destruct (Validate.opt_str_field "message" d); [|reflexivity].
      unfold Validate.opt_str_field. rewrite Hl.
      destruct v; try reflexivity; [now contradiction Hnull|now contradiction (Hstr s0)]. }
    unfold get_auth_code, bind. rewrite Hreq. unfold validated. now rewrite Hv.
Qed.

(** Every entry of the pricing map must itself carry a [tld] string: one
    entry without it makes [get_pricing] raise pydantic's
    [ValidationError], whatever filter was asked for. *)
Theorem get_pricing_entries_need_tld
    (tld : option string) (w : World) (r : Response) (d : dict)
    (entries : dict) (key : string) (entry : dict) :
  wf w = true ->
  remote (calls (trace w)) (pricing_request settings) = Answered r ->
  is_success r = true ->
  json_body r = inr (JDict d) ->
  is_success_envelope d ->
  Json.lookup "pricing" d = Some (JDict entries) ->
  In (key, JDict entry) entries ->
  Json.lookup "tld" entry = None ->
  fst (get_pricing settings remote tld w) =
    Raise (ValidationError (validation_text "PricingResponse" (JDict d))).
Proof.
  intros Hwf Hr Hs Hb (s & Hst & Hup) Hp Hin Htld.
  rewrite (get_pricing_envelope tld w r d s Hwf Hr Hs Hb (get_status_str d s Hst)).
  rewrite Hup. replace (String.eqb "SUCCESS" "SUCCESS") with true by reflexivity.
  assert (Hv : Validate.PricingResponse d = None).
  { unfold Validate.PricingResponse, Validate.bind_opt.
    destruct (Validate.str_field "status" d); [|reflexivity].
    destruct (Validate.opt_str_field "message" d); [|reflexivity].
    rewrite Hp.
    rewrite (traverse_none _ entries (key, JDict entry) Hin); [reflexivity|].
    cbn. unfold Validate.str_field. now rewrite Htld. }
  now rewrite Hv.
Qed.


(** *** More on the tools *)

(** A tool sends no call, sleeps no time and opens or releases no handle
    of its own: whatever the client operation and the logger do, a tool
    call ends in the world the client operation ended in.  It returns a
    response whenever the client operation returned or the structured
    logger is in use. *)
Theorem tool_call_adds_no_effect (c : ToolCall) (w : World) :
  exists res,
    Tools.call settings remote c w = (res, client_world settings remote c w)
    /\ (structured_logging = true \/ client_failure settings remote c w = None ->
        exists resp, res = Return resp).
Proof.
  assert (Hhandler : forall fields message next_steps e w1,
            exists res,
              (logger_error fields ;;;
               ret (mkToolResponse false message None (Some (exn_str e))
                      (Some next_steps))) w1 = (res, w1)
              /\ (structured_logging = true \/ Some e = None ->
                  exists resp, res = Return resp)).
  { intros fields message next_steps e w1. unfold logger_error.
    destruct structured_logging eqn:Hlog.
    - rewrite logged_structured by exact Hlog. eexists. split; [reflexivity|].
      intros _. eexists. reflexivity.
    - destruct fields as [|first fields].
      + eexists. split; [reflexivity|]. intros _. eexists. reflexivity.
      + rewrite logged_fallback by exact Hlog. eexists. split; [reflexivity|].
        intros [H|H]; discriminate H. }
  destruct c as [|domain|domain|domain years|tld];
    cbn [Tools.call client_world client_failure];
    unfold Tools.list_domains, Tools.get_domain_info, Tools.get_auth_code,
      Tools.renew_domain, Tools.get_pricing, Tools.failure, try_except, raised;
    unfold bind at 1.
  - destruct (list_domains settings remote w) as [[a|e] w1]; cbn [fst snd];
      [eexists; split; [reflexivity|intros _; eexists; reflexivity]|apply Hhandler].
  - destruct (get_domain_info settings remote domain w) as [[a|e] w1]; cbn [fst snd];
      [eexists; split; [reflexivity|intros _; eexists; reflexivity]|apply Hhandler].
  - destruct (get_auth_code settings remote domain w) as [[a|e] w1]; cbn [fst snd];
      [eexists; split; [reflexivity|intros _; eexists; reflexivity]|apply Hhandler].
  - destruct (renew_domain settings remote domain years w) as [[a|e] w1]; cbn [fst snd];
      [eexists; split; [reflexivity|intros _; eexists; reflexivity]|apply Hhandler].
  - destruct (get_pricing settings remote tld w) as [[a|e] w1]; cbn [fst snd];
      [eexists; split; [reflexivity|intros _; eexists; reflexivity]|apply Hhandler].
Qed.

(** When the client lists the domains, the [list_domains] tool reports
    success with a count equal to the number of domains and one dict for
    each domain, in order, from which the domains can be read back. *)
Theorem tool_list_domains_data (w w' : World) (domains : list Domain.t) :
  list_domains settings remote w = (Return domains, w') ->
  exists resp items,
    Tools.list_domains settings remote w = (Return resp, w')
    /\ success resp = true
    /\ error resp = None
    /\ data resp = Some [("domains", JList items);
                         ("count", JInt (Z.of_nat (List.length domains)))]
    /\ List.length items = List.length domains
    /\ Validate.traverse Validate.Domain items = Some domains.
Proof.
  intros Hlist.
  exists (mkToolResponse true
            ("Found " ++ Json.str_of_len domains ++ " domains in your account")
            (Some [("domains", JList (map (fun d => JDict (_domain_to_dict d)) domains));
                   ("count", JInt (Z.of_nat (List.length domains)))])
            None
            (Some ["Use get_domain_info for details on a specific domain";
                   "Use get_pricing to check renewal costs";
                   "Use renew_domain to extend registration"])).
  exists (map (fun d => JDict (_domain_to_dict d)) domains).
  split; [unfold Tools.list_domains, try_except, bind; now rewrite Hlist|].
  do 3 (split; [reflexivity|]). split; [apply length_map|].
  apply traverse_map. intros d.
  destruct d as [domain status tld [c|] [e|] [p|] [[|]|] [[|]|]]; reflexivity.
Qed.

Lemma pricing_entry_dict (key : string) (p : PricingInfo.t) :
  Json.update [("tld", JStr key)] (_pricing_to_dict p) = _pricing_to_dict p.
Proof. reflexivity. Qed.

(** When the client returns a pricing map, the [get_pricing] tool reports
    one dict for each entry, in order, and the count of the entries.  The
    [tld] of each dict is the [tld] field of the entry itself: the key
    under which the registrar filed the entry is not reported. *)
Theorem tool_get_pricing_data
    (tld : option string) (w w' : World) (pricing : list (string * PricingInfo.t)) :
  get_pricing settings remote tld w = (Return pricing, w') ->
  exists resp,
    Tools.get_pricing settings remote tld w = (Return resp, w')
    /\ success resp = true
    /\ error resp = None
    /\ data resp =
         Some [("pricing",
                JList (map (fun entry => JDict (_pricing_to_dict (snd entry))) pricing));
               ("count", JInt (Z.of_nat (List.length pricing)))].
Proof.
  intros Hrun. eexists. split.
  - unfold Tools.get_pricing, try_except, bind. rewrite Hrun. reflexivity.
  - cbn. split; [reflexivity|]. split; [reflexivity|].
    rewrite length_map. do 4 f_equal.
Qed.

(** For a name that no domain of the account has, the [get_domain_info]
    tool reports, with the structured logger, a failure whose error names
    the domain; with the logger of [logging] the error log of the tool
    raises [TypeError], and the tool raises it instead of returning. *)
Theorem tool_get_domain_info_not_found
    (name : string) (w w' : World) (domains : list Domain.t) :
  list_domains settings remote w = (Return domains, w') ->
  (forall x, In x domains -> Domain.domain x <> name) ->
  (structured_logging = true ->
     exists resp,
       Tools.get_domain_info settings remote name w = (Return resp, w')
       /\ success resp = false
       /\ message resp = "Failed to get info for " ++ name
       /\ data resp = None
       /\ error resp = Some ("Domain " ++ name ++ " not found in account"))
  /\ (structured_logging = false ->
       Tools.get_domain_info settings remote name w =
         (Raise (TypeError "Logger._log() got an unexpected keyword argument 'domain'"),
          w')).
Proof.
  intros Hlist Hnone.
  assert (Hrun : get_domain_info settings remote name w = (Raise (not_found name), w')).
  { unfold get_domain_info, bind. rewrite Hlist.
    now rewrite (scan_none name domains Hnone). }
  split; intros Hlog.
  - eexists. split.
    + unfold Tools.get_domain_info, try_except. unfold bind at 1. rewrite Hrun.
      unfold Tools.failure, logger_error. rewrite logged_structured by exact Hlog.
      reflexivity.
    + repeat split.
  - unfold Tools.get_domain_info, try_except. unfold bind at 1. rewrite Hrun.
    unfold Tools.failure, logger_error. now rewrite logged_fallback by exact Hlog.
Qed.

(** *** [PorkbunError] as a dict *)

(** [to_dict] of a [PorkbunError] always has the message under [error] and
    the status, or null, under [status]; it has a [details] key exactly
    when the error was built with details that are not empty. *)
Theorem to_dict_keys (message : json) (status : option Z) (details : option dict) :
  exists result,
    to_dict (mkPorkbunError message status details) = Some result
    /\ Json.lookup "error" result = Some message
    /\ Json.lookup "status" result =
         Some (match status with Some n => JInt n | None => JNull end)
    /\ Json.lookup "details" result =
         match details with
         | Some ((_ :: _) as d) => Some (JDict d)
         | _ => None
         end.
Proof.
  destruct details as [[|kv rest]|]; cbn; eexists; repeat split.
Qed.


(** *** Settings *)

Lemma substring_all (s : string) : substring 0 (String.length s) s = s.
Proof. induction s as [|c s IH]; cbn; [reflexivity|now rewrite IH]. Qed.

Lemma substring_drop (s : string) :
  forall n, (n <= String.length s)%nat ->
    exists hidden,
      s = hidden ++ substring n (String.length s - n) s
      /\ String.length hidden = n
      /\ String.length (substring n (String.length s - n) s) = (String.length s - n)%nat.
Proof.
  induction s as [|c s IH]; intros n Hn.
  - cbn in Hn. assert (n = 0)%nat as -> by lia. exists "". now cbn.
  - destruct n as [|n].
    + exists "". rewrite Nat.sub_0_r, substring_all. now cbn.
    + cbn in Hn. destruct (IH n) as (hidden & Heq & Hlen & Hsub); [lia|].
      exists (String c hidden). cbn. rewrite <- Heq.
      repeat split; auto.
Qed.

(** The masked key never shows more than the last four characters of the
    API key, and shows none of a key of four characters or fewer: it is
    either three stars, or three dots followed by the last four
    characters of a longer key. *)
Theorem masked_api_key_hides_the_key :
  ((String.length (api_key settings) <= 4)%nat ->
     get_masked_api_key settings = "***")
  /\ ((4 < String.length (api_key settings))%nat ->
        exists hidden shown,
          api_key settings = hidden ++ shown
          /\ String.length shown = 4%nat
          /\ get_masked_api_key settings = "..." ++ shown)
  /\ (String.length (get_masked_api_key settings) <= 7)%nat.
Proof.
  unfold get_masked_api_key, last_chars.
  set (key := api_key settings).
  assert (Hlong : (4 < String.length key)%nat ->
            exists hidden,
              key = hidden ++ substring (String.length key - 4) 4 key
              /\ String.length (substring (String.length key - 4) 4 key) = 4%nat).
  { intros Hlen.
    destruct (substring_drop key (String.length key - 4)) as (hidden & Heq & _ & Hsub);
      [lia|].
    replace (String.length key - (String.length key - 4))%nat with 4%nat in * by lia.
    now exists hidden. }
  split; [|split].
  - intros Hlen. destruct key as [|c rest]; [reflexivity|].
    apply Nat.leb_le in Hlen. now rewrite Hlen.
  - intros Hlen. destruct (Hlong Hlen) as (hidden & Heq & Hfour).
    exists hidden, (substring (String.length key - 4) 4 key).
    split; [exact Heq|]. split; [exact Hfour|].
    destruct key as [|c rest]; [cbn in Hlen; lia|].
    replace (Nat.leb (String.length (String c rest)) 4) with false
      by (symmetry; apply Nat.leb_gt; exact Hlen).
    reflexivity.
  - destruct key as [|c rest] eqn:Ek; [cbn; lia|].
    destruct (Nat.leb (String.length (String c rest)) 4) eqn:Hle; [cbn; lia|].
    apply Nat.leb_gt in Hle. destruct (Hlong Hle) as (hidden & _ & Hfour).
    change (S (S (S (String.length
                       (substring (String.length (String c rest) - 4) 4
                          (String c rest))))) <= 7)%nat.
    rewrite Hfour. lia.
Qed.

Lemma rstrip_slash_spec (v : string) :
  ends_with_slash (rstrip_slash v) = false
  /\ exists n, v = rstrip_slash v ++ slashes n.
Proof.
  induction v as [|c rest [Hend (n & Hn)]]; [split; [reflexivity|now exists 0%nat]|].
  cbn [rstrip_slash]. destruct (rstrip_slash rest) as [|c0 kept] eqn:Er.
  - cbn in Hn. destruct (Ascii.eqb_spec c "/") as [->|Hne].
    + split; [reflexivity|]. exists (S n). cbn. now rewrite <- Hn.
    + split.
      * cbn. now apply Ascii.eqb_neq.
      * exists n. cbn. now rewrite <- Hn.
  - split; [exact Hend|]. exists n. cbn [append] in *. now rewrite <- Hn.
Qed.

(** The base URL validator puts the default in place of an empty value;
    any other value loses its trailing slashes and nothing else, so the
    result never ends with a slash.  A value made of slashes only becomes
    the empty string, not the default. *)
Theorem validate_base_url_strips_slashes :
  validate_base_url "" = default_base_url
  /\ (forall v, v <> "" ->
        ends_with_slash (validate_base_url v) = false
        /\ exists n, v = validate_base_url v ++ slashes n)
  /\ (forall n, validate_base_url (slashes (S n)) = "").
Proof.
  split; [reflexivity|]. split.
  - intros v Hv. destruct v as [|c rest]; [contradiction|].
    unfold validate_base_url. apply rstrip_slash_spec.
  - intros n. unfold validate_base_url. cbn [slashes].
    change (String "/" (slashes n)) with (slashes (S n)).
    induction n as [|n IH]; [reflexivity|].
    change (slashes (S (S n))) with (String "/" (slashes (S n))).
    cbn [rstrip_slash]. now rewrite IH.
Qed.

End Properties.

(** ** The statements at work on examples *)

(** With the structured logger, three retries and a registrar that is
    down, four calls are sent, 0.5, 1 and 2 seconds are slept in between,
    and the last failure, a 503, is reported. *)
Lemma request_retries_then_raises_witness :
  structured_logging (PyLib := ascii_lib) = true
  /\ wf new_world = true
  /\ valid_settings default_settings
  /\ (forall i, (i <= 3)%nat ->
        is_failure (remote_down (0 + i)
                      (mkRequest "POST" "/domain/list/all" (auth_payload default_settings)))
          = true)
  /\ exists w',
       _request (lib := ascii_lib) default_settings remote_down
         "POST" "/domain/list/all" None new_world =
         (Raise (PorkbunError (JStr "HTTP 503: busy") (Some 503) []), w')
       /\ calls (trace w') = 4%nat
       /\ Forall2 Qeq (sleeps (trace w')) [1 # 2; 1; 2]%Q.
Proof.
  assert (Hlog : structured_logging (PyLib := ascii_lib) = true) by reflexivity.
  assert (Hwf : wf new_world = true) by reflexivity.
  assert (Hvalid : valid_settings default_settings) by (unfold valid_settings; cbn; lia).
  assert (Hfail : forall i, (i <= 3)%nat ->
            is_failure (remote_down (0 + i)
                          (mkRequest "POST" "/domain/list/all"
                             (auth_payload default_settings))) = true).
  { intros i _. unfold remote_down. now destruct (Nat.even (0 + i)). }
  split; [exact Hlog|]. split; [exact Hwf|]. split; [exact Hvalid|].
  split; [exact Hfail|].
  destruct (request_retries_then_raises (lib := ascii_lib) default_settings remote_down
              new_world "POST" "/domain/list/all" None Hlog Hwf Hvalid Hfail)
    as (w' & delays & Hrun & _ & Hcalls & Hsleeps & Hdelays).
  exists w'. split; [exact Hrun|]. split; [exact Hcalls|].
  rewrite Hsleeps. apply (Forall2_Qeq_trans _ _ _ Hdelays).
  repeat constructor.
Defined.

(** C1.  With the logger of [logging] that [config.py] falls back to, the
    default of three retries and a registrar that is down, [_request]
    does not retry: the warning of the first failed attempt raises
    [TypeError] inside the [except] clause, so one call is sent instead of
    four, nothing is slept, and no [PorkbunError] is raised. *)
Theorem request_stops_retrying_with_fallback_logger :
  structured_logging (PyLib := fallback_lib) = false
  /\ max_retries default_settings = 3
  /\ (forall i,
        is_failure (remote_down i
                      (mkRequest "POST" "/domain/list/all" (auth_payload default_settings)))
          = true)
  /\ exists w',
       _request (lib := fallback_lib) default_settings remote_down
         "POST" "/domain/list/all" None new_world =
         (Raise (TypeError "Logger._log() got an unexpected keyword argument 'endpoint'"),
          w')
       /\ calls (trace w') = 1%nat
       /\ sleeps (trace w') = [].
Proof.
  split; [reflexivity|]. split; [reflexivity|]. split.
  - intros i. unfold remote_down. now destruct (Nat.even i).
  - eexists. split; [|split].
    + apply (request_fallback_stops_at_first_failure (lib := fallback_lib));
        [reflexivity|reflexivity|cbn; lia|reflexivity].
    + reflexivity.
    + reflexivity.
Qed.

(** An error envelope ends the request after one call. *)
Lemma request_non_success_raises_at_once_witness :
  wf busy_world = true
  /\ valid_settings default_settings
  /\ non_success (lib := ascii_lib)
       [("status", JStr "ERROR"); ("message", JStr "Invalid API key.")]
  /\ exists w',
       _request (lib := ascii_lib) default_settings
         (remote_answers (error_envelope "Invalid API key."))
         "POST" "/domain/list/all" None busy_world =
         (Raise (PorkbunError (JStr "Invalid API key.") (Some 200)
                   [("status", JStr "ERROR"); ("message", JStr "Invalid API key.")]), w')
       /\ calls (trace w') = 1%nat
       /\ sleeps (trace w') = [].
Proof.
  assert (Hwf : wf busy_world = true) by reflexivity.
  assert (Hvalid : valid_settings default_settings) by (unfold valid_settings; cbn; lia).
  assert (Hns : non_success (lib := ascii_lib)
                  [("status", JStr "ERROR"); ("message", JStr "Invalid API key.")]).
  { exists "ERROR". split; [reflexivity|discriminate]. }
  split; [exact Hwf|]. split; [exact Hvalid|]. split; [exact Hns|].
  destruct (request_non_success_raises_at_once (lib := ascii_lib) default_settings
              (remote_answers (error_envelope "Invalid API key."))
              busy_world "POST" "/domain/list/all" None
              (ok_json (error_envelope "Invalid API key.")) _
              Hwf Hvalid eq_refl eq_refl eq_refl Hns)
    as (w' & Hrun & _ & Hcalls & Hsleeps).
  exists w'. split; [exact Hrun|]. split; [exact Hcalls|exact Hsleeps].
Defined.

(** With the structured logger and a registrar that is down, the pricing
    tool reports the timeout that the client let through. *)
Lemma tool_call_returns_response_witness :
  structured_logging (PyLib := ascii_lib) = true
  /\ exists resp w',
       Tools.call (lib := ascii_lib) default_settings remote_down (GetPricing None)
         new_world = (Return resp, w')
       /\ success resp = false
       /\ error resp = Some "timed out"
       /\ data resp = None.
Proof.
  assert (Hlog : structured_logging (PyLib := ascii_lib) = true) by reflexivity.
  split; [exact Hlog|].
  destruct (tool_call_returns_response (lib := ascii_lib) default_settings remote_down
              (GetPricing None) new_world Hlog)
    as (resp & w' & Hrun & Hfailure).
  exists resp, w'. split; [exact Hrun|]. exact Hfailure.
Defined.

(** A failure whose exception has an empty text is reported with an empty
    error: an error envelope with an empty message makes the [list_domains]
    tool answer [success = false] and [error = ""]. *)
Lemma tool_error_text_may_be_empty :
  ~ failure_has_error_text (lib := ascii_lib) default_settings
      (remote_answers (error_envelope "")) ListDomains new_world.
Proof.
  intros (resp & w' & Hrun & Herr).
  vm_compute in Hrun. injection Hrun as <- <-.
  destruct (Herr eq_refl) as (s & Hs & Hne).
  cbn in Hs. injection Hs as <-. now apply Hne.
Qed.

(** The second record of the list is the first named example.com and is
    returned as it is; no record is named example.org. *)
Lemma get_domain_info_linear_scan_witness :
  list_domains (lib := ascii_lib) default_settings (remote_answers domains_envelope)
    new_world =
    (Return [example_net; example_com],
     snd (list_domains (lib := ascii_lib) default_settings
            (remote_answers domains_envelope) new_world))
  /\ fst (get_domain_info (lib := ascii_lib) default_settings
            (remote_answers domains_envelope) "example.com" new_world)
     = Return example_com
  /\ fst (get_domain_info (lib := ascii_lib) default_settings
            (remote_answers domains_envelope) "example.org" new_world)
     = Raise (PorkbunError (JStr "Domain example.org not found in account")
                (Some 404) []).
Proof.
  assert (Hlist : list_domains (lib := ascii_lib) default_settings
                    (remote_answers domains_envelope) new_world =
                  (Return [example_net; example_com],
                   snd (list_domains (lib := ascii_lib) default_settings
                          (remote_answers domains_envelope) new_world)))
    by reflexivity.
  split; [exact Hlist|]. split.
  - destruct (get_domain_info_linear_scan (lib := ascii_lib) default_settings
                (remote_answers domains_envelope) "example.com" _ _ _ Hlist)
      as [Hfound _].
    destruct Hfound as (d & (before & after & Hsplit & Hname & Hbefore) & Hrun).
    { exists example_com. split; [right; left; reflexivity|reflexivity]. }
    rewrite Hrun. cbn [fst]. f_equal.
    destruct before as [|x [|y before]].
    + injection Hsplit as <- _. discriminate Hname.
    + now injection Hsplit as _ <- _.
    + injection Hsplit as _ _ Hnil. now destruct before.
  - destruct (get_domain_info_linear_scan (lib := ascii_lib) default_settings
                (remote_answers domains_envelope) "example.org" _ _ _ Hlist)
      as [_ Hmissing].
    rewrite Hmissing; [reflexivity|].
    intros x [<-|[<-|[]]]; discriminate.
Defined.

(** The empty string is a filter that is supplied and is no key of the
    map, yet the result is the whole map rather than the empty mapping.
    And for a map whose entry has no [tld] of its own, a filter that is a
    key of the map gets a [ValidationError], not the singleton. *)
Lemma get_pricing_empty_filter_counterexample :
  (Json.lookup "" [("com", com_pricing); ("net", net_pricing)] = None
   /\ fst (get_pricing (lib := ascii_lib) default_settings
             (remote_answers pricing_envelope) (Some "") new_world)
      = Return [("com", com_pricing); ("net", net_pricing)]
   /\ fst (get_pricing (lib := ascii_lib) default_settings
             (remote_answers pricing_envelope) (Some "") new_world)
      <> Return [])
  /\ (Json.lookup "pricing" bare_pricing_envelope
      = Some (JDict [("com", JDict [("registration", JStr "9.68");
                                    ("renewal", JStr "10.18")])])
     /\ fst (get_pricing (lib := ascii_lib) default_settings
               (remote_answers (JDict bare_pricing_envelope)) (Some "com") new_world)
        = Raise (ValidationError "validation error for PricingResponse")
     /\ forall entry,
          fst (get_pricing (lib := ascii_lib) default_settings
                 (remote_answers (JDict bare_pricing_envelope)) (Some "com") new_world)
          <> Return [("com", entry)]).
Proof.
  split.
  - split; [reflexivity|]. split; [reflexivity|discriminate].
  - split; [reflexivity|]. split; [reflexivity|]. intros entry. discriminate.
Qed.

Lemma get_pricing_filter_witness :
  wf new_world = true
  /\ is_success_envelope (lib := ascii_lib)
       [("status", JStr "SUCCESS");
        ("pricing",
         JDict [("com", JDict [("tld", JStr "com"); ("registration", JStr "9.68");
                               ("renewal", JStr "10.18")]);
                ("net", JDict [("tld", JStr "net")])])]
  /\ fst (get_pricing (lib := ascii_lib) default_settings
            (remote_answers pricing_envelope) (Some "com") new_world)
     = Return [("com", com_pricing)]
  /\ fst (get_pricing (lib := ascii_lib) default_settings
            (remote_answers pricing_envelope) (Some "org") new_world)
     = Return []
  /\ fst (get_pricing (lib := ascii_lib) default_settings
            (remote_answers pricing_envelope) None new_world)
     = Return [("com", com_pricing); ("net", net_pricing)].
Proof.
  assert (Hwf : wf new_world = true) by reflexivity.
  assert (Henv : is_success_envelope (lib := ascii_lib)
       [("status", JStr "SUCCESS");
        ("pricing",
         JDict [("com", JDict [("tld", JStr "com"); ("registration", JStr "9.68");
                               ("renewal", JStr "10.18")]);
                ("net", JDict [("tld", JStr "net")])])]).
  { exists "SUCCESS". split; reflexivity. }
  split; [exact Hwf|]. split; [exact Henv|].
  pose proof (fun tld =>
    get_pricing_filter (lib := ascii_lib) default_settings
      (remote_answers pricing_envelope) tld new_world (ok_json pricing_envelope) _
      (PricingResponse.mk "SUCCESS" None [("com", com_pricing); ("net", net_pricing)])
      Hwf eq_refl eq_refl eq_refl Henv eq_refl) as H.
  split; [|split].
  - destruct (H (Some "com")) as (_ & Hkey & _).
    apply (Hkey "com" com_pricing); [reflexivity|discriminate|reflexivity].
  - destruct (H (Some "org")) as (_ & _ & Hno).
    apply (Hno "org"); [reflexivity|discriminate|reflexivity].
  - destruct (H None) as (Hall & _). apply Hall. now left.
Defined.

Lemma renew_domain_result_witness :
  _request (lib := ascii_lib) default_settings (remote_answers (JDict renewed_envelope))
    "POST" "/domain/renew/example.com" (Some [("years", JInt 3)]) new_world =
    (Return renewed_envelope,
     snd (_request (lib := ascii_lib) default_settings
            (remote_answers (JDict renewed_envelope))
            "POST" "/domain/renew/example.com" (Some [("years", JInt 3)]) new_world))
  /\ exists result,
       fst (renew_domain (lib := ascii_lib) default_settings
              (remote_answers (JDict renewed_envelope)) "example.com" 3 new_world)
         = Return result
       /\ Json.lookup "years" result = Some (JInt 3)
       /\ Json.lookup "success" result = Some (JBool true)
       /\ Json.lookup "message" result = Some (JStr "Renewed until 2030").
Proof.
  assert (Hreq : _request (lib := ascii_lib) default_settings
                   (remote_answers (JDict renewed_envelope))
                   "POST" "/domain/renew/example.com" (Some [("years", JInt 3)])
                   new_world =
                 (Return renewed_envelope,
                  snd (_request (lib := ascii_lib) default_settings
                         (remote_answers (JDict renewed_envelope))
                         "POST" "/domain/renew/example.com" (Some [("years", JInt 3)])
                         new_world)))
    by reflexivity.
  split; [exact Hreq|].
  destruct (renew_domain_result (lib := ascii_lib) default_settings
              (remote_answers (JDict renewed_envelope)) "example.com" 3 _ _ _ Hreq)
    as (result & Hrun & _ & Hyears & Hsuccess & Hmsg & _).
  exists result. rewrite Hrun. split; [reflexivity|].
  split; [exact Hyears|]. split; [exact Hsuccess|].
  now apply Hmsg.
Defined.

Lemma get_pricing_never_retries_witness :
  wf busy_world = true
  /\ exists res w',
       get_pricing (lib := ascii_lib) default_settings remote_down (Some "com") busy_world
         = (res, w')
       /\ calls (trace w') = 1%nat
       /\ sleeps (trace w') = []
       /\ res = Raise (RequestError "timed out").
Proof.
  assert (Hwf : wf busy_world = true) by reflexivity.
  split; [exact Hwf|].
  destruct (get_pricing_never_retries (lib := ascii_lib) default_settings remote_down
              (Some "com") busy_world Hwf)
    as (res & w' & Hrun & _ & Hcalls & Hsleeps & Hfailed & _).
  exists res, w'. split; [exact Hrun|]. split; [exact Hcalls|]. split; [exact Hsleeps|].
  now apply Hfailed.
Defined.

Lemma get_auth_code_result_witness :
  _request (lib := ascii_lib) default_settings (remote_answers (JDict auth_code_envelope))
    "POST" "/domain/getAuthCode/example.com" None new_world =
    (Return auth_code_envelope,
     snd (_request (lib := ascii_lib) default_settings
            (remote_answers (JDict auth_code_envelope))
            "POST" "/domain/getAuthCode/example.com" None new_world))
  /\ Validate.AuthCodeResponse auth_code_envelope =
       Some (AuthCodeResponse.mk "success" None (Some "EPP-1234"))
  /\ fst (get_auth_code (lib := ascii_lib) default_settings
            (remote_answers (JDict auth_code_envelope)) "example.com" new_world)
     = Return "EPP-1234".
Proof.
  assert (Hreq : _request (lib := ascii_lib) default_settings
                   (remote_answers (JDict auth_code_envelope))
                   "POST" "/domain/getAuthCode/example.com" None new_world =
                 (Return auth_code_envelope,
                  snd (_request (lib := ascii_lib) default_settings
                         (remote_answers (JDict auth_code_envelope))
                         "POST" "/domain/getAuthCode/example.com" None new_world)))
    by reflexivity.
  assert (Hv : Validate.AuthCodeResponse auth_code_envelope =
               Some (AuthCodeResponse.mk "success" None (Some "EPP-1234")))
    by reflexivity.
  split; [exact Hreq|]. split; [exact Hv|].
  destruct (get_auth_code_result (lib := ascii_lib) default_settings
              (remote_answers (JDict auth_code_envelope)) "example.com" _ _ _ _ Hreq Hv)
    as (Hcode & _ & _).
  rewrite (Hcode "EPP-1234" eq_refl). reflexivity.
Defined.

Lemma missing_status_is_non_success_witness :
  wf new_world = true
  /\ valid_settings default_settings
  /\ upper (PyLib := ascii_lib) "" = ""
  /\ fst (_request (lib := ascii_lib) default_settings
            (remote_answers (JDict [("message", JStr "no status")]))
            "POST" "/domain/list/all" None new_world)
     = Raise (PorkbunError (JStr "no status") (Some 200) [("message", JStr "no status")])
  /\ fst (get_pricing (lib := ascii_lib) default_settings
            (remote_answers (JDict [("message", JStr "no status")])) None new_world)
     = Raise (PorkbunError (JStr "no status") None []).
Proof.
  assert (Hwf : wf new_world = true) by reflexivity.
  assert (Hvalid : valid_settings default_settings) by (unfold valid_settings; cbn; lia).
  split; [exact Hwf|]. split; [exact Hvalid|]. split; [reflexivity|].
  destruct (missing_status_is_non_success (lib := ascii_lib) default_settings
              (remote_answers (JDict [("message", JStr "no status")])) new_world
              (ok_json (JDict [("message", JStr "no status")])) _
              Hwf Hvalid eq_refl eq_refl eq_refl eq_refl)
    as [Hrequest Hpricing].
  split.
  - destruct (Hrequest "POST" "/domain/list/all" None eq_refl) as (w' & Hrun & _).
    now rewrite Hrun.
  - destruct (Hpricing None eq_refl) as (w' & Hrun & _).
    now rewrite Hrun.
Defined.

(** Closing the busy world releases handle 1; the next request runs on a
    new handle, 2. *)
Lemma close_is_idempotent_and_reopens_witness :
  wf busy_world = true
  /\ snd (close busy_world) = mkWorld None 2 [1%nat; 0%nat] []
  /\ close (snd (close busy_world)) = (Return tt, snd (close busy_world))
  /\ exists res w' events,
       _request (lib := ascii_lib) default_settings remote_down
         "POST" "/domain/list/all" None (snd (close busy_world)) = (res, w')
       /\ trace w' =
            Call 2 (mkRequest "POST" "/domain/list/all" (auth_payload default_settings))
            :: events.
Proof.
  assert (Hwf : wf busy_world = true) by reflexivity.
  split; [exact Hwf|]. split; [reflexivity|].
  destruct (close_is_idempotent_and_reopens (lib := ascii_lib) default_settings
              remote_down busy_world Hwf)
    as (_ & _ & _ & Hagain & _ & _ & Hrequest & _).
  split; [exact Hagain|].
  apply (Hrequest "POST" "/domain/list/all" None). cbn. lia.
Defined.

(** ** Further examples *)

(** Two timeouts, then an answer: three calls, 0.5 and 1 second slept. *)
Lemma request_recovers_after_failures_witness :
  structured_logging (PyLib := ascii_lib) = true
  /\ wf new_world = true
  /\ (2 <= Z.to_nat (max_retries default_settings))%nat
  /\ is_success_envelope (lib := ascii_lib) renewed_envelope
  /\ exists w',
       _request (lib := ascii_lib) default_settings
         (remote_recovers (JDict renewed_envelope))
         "POST" "/domain/renew/example.com" (Some [("years", JInt 1)]) new_world
         = (Return renewed_envelope, w')
       /\ calls (trace w') = 3%nat
       /\ Forall2 Qeq (sleeps (trace w')) [1 # 2; 1]%Q.
Proof.
  assert (Hlog : structured_logging (PyLib := ascii_lib) = true) by reflexivity.
  assert (Hwf : wf new_world = true) by reflexivity.
  assert (Hk : (2 <= Z.to_nat (max_retries default_settings))%nat) by (cbn; lia).
  assert (Henv : is_success_envelope (lib := ascii_lib) renewed_envelope).
  { exists "SUCCESS". split; reflexivity. }
  split; [exact Hlog|]. split; [exact Hwf|]. split; [exact Hk|]. split; [exact Henv|].
  destruct (request_recovers_after_failures (lib := ascii_lib) default_settings
              (remote_recovers (JDict renewed_envelope)) new_world
              "POST" "/domain/renew/example.com" (Some [("years", JInt 1)])
              2 (ok_json (JDict renewed_envelope)) renewed_envelope
              Hlog Hwf Hk ltac:(cbn; lia))
    as (w' & delays & Hrun & _ & Hcalls & Hsleeps & Hdelays).
  - intros i Hi. destruct i as [|[|i]]; [reflexivity|reflexivity|lia].
  - reflexivity.
  - reflexivity.
  - reflexivity.
  - exact Henv.
  - exists w'. split; [exact Hrun|]. split; [exact Hcalls|].
    rewrite Hsleeps. apply (Forall2_Qeq_trans _ _ _ Hdelays).
    repeat constructor.
Defined.

Lemma request_run_shape_witness :
  wf busy_world = true
  /\ 0 <= max_retries default_settings
  /\ exists j,
       0 <= j <= 3
       /\ Z.of_nat (calls (trace (snd (_request (lib := ascii_lib) default_settings
                                         remote_down "POST" "/domain/list/all" None
                                         busy_world))))
          = 0 + j + 1.
Proof.
  assert (Hwf : wf busy_world = true) by reflexivity.
  assert (Hmax : 0 <= max_retries default_settings) by (cbn; lia).
  split; [exact Hwf|]. split; [exact Hmax|].
  destruct (request_run_shape (lib := ascii_lib) default_settings remote_down
              busy_world _ "POST" "/domain/list/all" None _ Hwf Hmax
              (surjective_pairing _))
    as (j & Hj & _ & Hcalls & _).
  exists j. split; [exact Hj|exact Hcalls].
Defined.

(** A 200 whose body is a JSON list: one call, and an [AttributeError]. *)
Lemma request_unreadable_body_not_retried_witness :
  wf new_world = true
  /\ 0 <= max_retries default_settings
  /\ unreadable (JList []) = Some "'list' object has no attribute 'get'"
  /\ exists w',
       _request (lib := ascii_lib) default_settings (remote_answers (JList []))
         "POST" "/domain/list/all" None new_world
         = (Raise (AttributeError "'list' object has no attribute 'get'"), w')
       /\ calls (trace w') = 1%nat.
Proof.
  assert (Hwf : wf new_world = true) by reflexivity.
  assert (Hmax : 0 <= max_retries default_settings) by (cbn; lia).
  split; [exact Hwf|]. split; [exact Hmax|]. split; [reflexivity|].
  destruct (request_unreadable_body_not_retried (lib := ascii_lib) default_settings
              (remote_answers (JList [])) new_world "POST" "/domain/list/all" None
              (ok_json (JList [])) Hwf Hmax eq_refl eq_refl)
    as (w' & Htrace & _ & Hattr).
  exists w'. split.
  - apply (Hattr (JList [])); reflexivity.
  - now rewrite Htrace.
Defined.

Lemma request_total_sleep_bounded_witness :
  wf new_world = true
  /\ valid_settings default_settings
  /\ exists delays,
       sleeps (trace (snd (_request (lib := ascii_lib) default_settings remote_down
                             "POST" "/domain/list/all" None new_world)))
         = delays
       /\ List.length delays = 3%nat
       /\ Forall2 Qeq delays [1 # 2; 1; 2]%Q
       /\ (total delays == 7 # 2)%Q
       /\ (total delays <= 31 # 2)%Q.
Proof.
  assert (Hwf : wf new_world = true) by reflexivity.
  assert (Hvalid : valid_settings default_settings) by (unfold valid_settings; cbn; lia).
  split; [exact Hwf|]. split; [exact Hvalid|].
  destruct (request_total_sleep_bounded (lib := ascii_lib) default_settings remote_down
              new_world _ "POST" "/domain/list/all" None _ Hwf Hvalid
              (surjective_pairing _))
    as (delays & Hsleeps & _ & Hdelays & Hsum & Hle).
  assert (Hlen : List.length delays = 3%nat).
  { change (List.length (sleeps (trace new_world) ++ delays) = 3%nat).
    now rewrite <- Hsleeps. }
  rewrite Hlen in Hdelays, Hsum.
  exists delays. split; [exact Hsleeps|]. split; [exact Hlen|].
  split; [|split; [|exact Hle]].
  - apply (Forall2_Qeq_trans _ _ _ Hdelays). repeat constructor.
  - rewrite Hsum. reflexivity.
Defined.

(** The open handle 1 of the busy world is reused by a pricing call. *)
Lemma requests_keep_the_handle_witness :
  wf busy_world = true
  /\ _client (snd (get_pricing (lib := ascii_lib) default_settings remote_down
                     None busy_world)) = Some 1%nat
  /\ created (snd (get_pricing (lib := ascii_lib) default_settings remote_down
                     None busy_world)) = 2%nat
  /\ released (snd (get_pricing (lib := ascii_lib) default_settings remote_down
                      None busy_world)) = [0%nat].
Proof.
  assert (Hwf : wf busy_world = true) by reflexivity.
  split; [exact Hwf|].
  destruct (requests_keep_the_handle (lib := ascii_lib) default_settings remote_down
              busy_world "POST" "/domain/list/all" None None Hwf _
              (or_intror eq_refl))
    as (Hc & Hr & Hsame & _ & _).
  split; [exact Hc|]. split; [exact (Hsame 1%nat eq_refl)|exact Hr].
Defined.

Lemma context_manager_releases_witness :
  wf new_world = true
  /\ _client (snd (__aexit__
                     (snd (_request (lib := ascii_lib) default_settings remote_down
                             "POST" "/domain/list/all" None
                             (snd (__aenter__ new_world)))))) = None
  /\ released (snd (__aexit__
                      (snd (_request (lib := ascii_lib) default_settings remote_down
                              "POST" "/domain/list/all" None
                              (snd (__aenter__ new_world)))))) = [0%nat].
Proof.
  assert (Hwf : wf new_world = true) by reflexivity.
  split; [exact Hwf|].
  destruct (context_manager_releases (lib := ascii_lib) default_settings remote_down
              new_world "POST" "/domain/list/all" None Hwf)
    as (_ & _ & _ & _ & Hnone & Hreleased & _).
  split; [exact Hnone|exact Hreleased].
Defined.

(** A payload with a key named like a credential takes its place. *)
Lemma full_payload_lookup_witness :
  NoDup (map fst [("years", JInt 2); ("apikey", JStr "other")])
  /\ Json.lookup "apikey"
       (full_payload default_settings (Some [("years", JInt 2); ("apikey", JStr "other")]))
     = Some (JStr "other")
  /\ Json.lookup "secretapikey"
       (full_payload default_settings (Some [("years", JInt 2); ("apikey", JStr "other")]))
     = Some (JStr "sk1_secret").
Proof.
  assert (Hnd : NoDup (map fst [("years", JInt 2); ("apikey", JStr "other")])).
  { cbn. constructor; [intros [H|[]]; discriminate|].
    constructor; [intros []|constructor]. }
  split; [exact Hnd|]. split.
  - exact (full_payload_lookup default_settings _ "apikey" Hnd).
  - exact (full_payload_lookup default_settings _ "secretapikey" Hnd).
Defined.

Lemma list_domains_validates_every_record_witness :
  _request (lib := ascii_lib) default_settings (remote_answers domains_envelope)
    "POST" "/domain/list/all" None new_world
  = (Return [("status", JStr "SUCCESS");
             ("domains",
              JList [JDict [("domain", JStr "example.net"); ("status", JStr "ACTIVE");
                            ("tld", JStr "net")];
                     JDict [("domain", JStr "example.com"); ("status", JStr "ACTIVE");
                            ("tld", JStr "com"); ("create_date", JStr "2020-01-01");
                            ("auto_renew", JBool true)]])],
     snd (_request (lib := ascii_lib) default_settings (remote_answers domains_envelope)
            "POST" "/domain/list/all" None new_world))
  /\ fst (list_domains (lib := ascii_lib) default_settings
            (remote_answers domains_envelope) new_world)
     = Return [example_net; example_com].
Proof.
  assert (Hreq : _request (lib := ascii_lib) default_settings
                   (remote_answers domains_envelope)
                   "POST" "/domain/list/all" None new_world
                 = (Return [("status", JStr "SUCCESS");
                            ("domains",
                             JList [JDict [("domain", JStr "example.net");
                                           ("status", JStr "ACTIVE");
                                           ("tld", JStr "net")];
                                    JDict [("domain", JStr "example.com");
                                           ("status", JStr "ACTIVE");
                                           ("tld", JStr "com");
                                           ("create_date", JStr "2020-01-01");
                                           ("auto_renew", JBool true)]])],
                    snd (_request (lib := ascii_lib) default_settings
                           (remote_answers domains_envelope)
                           "POST" "/domain/list/all" None new_world)))
    by reflexivity.
  split; [exact Hreq|].
  destruct (list_domains_validates_every_record (lib := ascii_lib) default_settings
              (remote_answers domains_envelope) _ _ _ Hreq) as [Hvalid _].
  destruct (Hvalid (DomainsResponse.mk "SUCCESS" None [example_net; example_com]) eq_refl)
    as (Hrun & _).
  now rewrite Hrun.
Defined.

Lemma returned_response_is_success_witness :
  _request (lib := ascii_lib) default_settings (remote_answers (JDict auth_code_envelope))
    "POST" "/domain/getAuthCode/example.com" None new_world
  = (Return auth_code_envelope,
     snd (_request (lib := ascii_lib) default_settings
            (remote_answers (JDict auth_code_envelope))
            "POST" "/domain/getAuthCode/example.com" None new_world))
  /\ PorkbunResponse_success (lib := ascii_lib) "success" = true.
Proof.
  assert (Hreq : _request (lib := ascii_lib) default_settings
                   (remote_answers (JDict auth_code_envelope))
                   "POST" "/domain/getAuthCode/example.com" None new_world
                 = (Return auth_code_envelope,
                    snd (_request (lib := ascii_lib) default_settings
                           (remote_answers (JDict auth_code_envelope))
                           "POST" "/domain/getAuthCode/example.com" None new_world)))
    by reflexivity.
  split; [exact Hreq|].
  destruct (returned_response_is_success (lib := ascii_lib) default_settings
              (remote_answers (JDict auth_code_envelope)) _ _ _ _ _ _ Hreq)
    as [_ Hauth].
  exact (Hauth (AuthCodeResponse.mk "success" None (Some "EPP-1234")) eq_refl).
Defined.

Lemma get_auth_code_null_or_invalid_witness :
  _request (lib := ascii_lib) default_settings
    (remote_answers (JDict null_auth_code_envelope))
    "POST" "/domain/getAuthCode/example.com" None new_world
  = (Return null_auth_code_envelope,
     snd (_request (lib := ascii_lib) default_settings
            (remote_answers (JDict null_auth_code_envelope))
            "POST" "/domain/getAuthCode/example.com" None new_world))
  /\ fst (get_auth_code (lib := ascii_lib) default_settings
            (remote_answers (JDict null_auth_code_envelope)) "example.com" new_world)
     = Return "".
Proof.
  assert (Hreq : _request (lib := ascii_lib) default_settings
                   (remote_answers (JDict null_auth_code_envelope))
                   "POST" "/domain/getAuthCode/example.com" None new_world
                 = (Return null_auth_code_envelope,
                    snd (_request (lib := ascii_lib) default_settings
                           (remote_answers (JDict null_auth_code_envelope))
                           "POST" "/domain/getAuthCode/example.com" None new_world)))
    by reflexivity.
  split; [exact Hreq|].
  destruct (get_auth_code_null_or_invalid (lib := ascii_lib) default_settings
              (remote_answers (JDict null_auth_code_envelope)) "example.com" _ _ _ Hreq)
    as [Hnull _].
  rewrite (Hnull (AuthCodeResponse.mk "SUCCESS" None None) eq_refl eq_refl).
  reflexivity.
Defined.

(** The pricing map as the registrar files it fails validation, also when
    a TLD that is not in the map is asked for. *)
Lemma get_pricing_entries_need_tld_witness :
  wf new_world = true
  /\ is_success_envelope (lib := ascii_lib) bare_pricing_envelope
  /\ fst (get_pricing (lib := ascii_lib) default_settings
            (remote_answers (JDict bare_pricing_envelope)) (Some "org") new_world)
     = Raise (ValidationError "validation error for PricingResponse").
Proof.
  assert (Hwf : wf new_world = true) by reflexivity.
  assert (Henv : is_success_envelope (lib := ascii_lib) bare_pricing_envelope).
  { exists "SUCCESS". split; reflexivity. }
  split; [exact Hwf|]. split; [exact Henv|].
  exact (get_pricing_entries_need_tld (lib := ascii_lib) default_settings
           (remote_answers (JDict bare_pricing_envelope)) (Some "org") new_world
           (ok_json (JDict bare_pricing_envelope)) bare_pricing_envelope
           [("com", JDict [("registration", JStr "9.68"); ("renewal", JStr "10.18")])]
           "com" [("registration", JStr "9.68"); ("renewal", JStr "10.18")]
           Hwf eq_refl eq_refl eq_refl Henv eq_refl (or_introl eq_refl) eq_refl).
Defined.

Lemma tool_list_domains_data_witness :
  list_domains (lib := ascii_lib) default_settings (remote_answers domains_envelope)
    new_world
  = (Return [example_net; example_com],
     snd (list_domains (lib := ascii_lib) default_settings
            (remote_answers domains_envelope) new_world))
  /\ exists resp items,
       fst (Tools.list_domains (lib := ascii_lib) default_settings
              (remote_answers domains_envelope) new_world) = Return resp
       /\ success resp = true
       /\ data resp = Some [("domains", JList items); ("count", JInt 2)]
       /\ Validate.traverse (Validate.Domain (lib := ascii_lib)) items
          = Some [example_net; example_com].
Proof.
  assert (Hlist : list_domains (lib := ascii_lib) default_settings
                    (remote_answers domains_envelope) new_world
                  = (Return [example_net; example_com],
                     snd (list_domains (lib := ascii_lib) default_settings
                            (remote_answers domains_envelope) new_world)))
    by reflexivity.
  split; [exact Hlist|].
  destruct (tool_list_domains_data (lib := ascii_lib) default_settings
              (remote_answers domains_envelope) _ _ _ Hlist)
    as (resp & items & Hrun & Hs & _ & Hdata & _ & Hback).
  exists resp, items. rewrite Hrun.
  split; [reflexivity|]. split; [exact Hs|]. split; [exact Hdata|exact Hback].
Defined.

(** An entry filed under "com" whose own [tld] is "net" is reported as
    "net". *)
Lemma tool_get_pricing_data_witness :
  get_pricing (lib := ascii_lib) default_settings
    (remote_answers
       (JDict [("status", JStr "SUCCESS");
               ("pricing", JDict [("com", JDict [("tld", JStr "net")])])]))
    None new_world
  = (Return [("com", net_pricing)],
     snd (get_pricing (lib := ascii_lib) default_settings
            (remote_answers
               (JDict [("status", JStr "SUCCESS");
                       ("pricing", JDict [("com", JDict [("tld", JStr "net")])])]))
            None new_world))
  /\ exists resp,
       fst (Tools.get_pricing (lib := ascii_lib) default_settings
              (remote_answers
                 (JDict [("status", JStr "SUCCESS");
                         ("pricing", JDict [("com", JDict [("tld", JStr "net")])])]))
              None new_world) = Return resp
       /\ data resp =
            Some [("pricing",
                   JList [JDict [("tld", JStr "net"); ("registration", JNull);
                                 ("renewal", JNull); ("transfer", JNull)]]);
                  ("count", JInt 1)].
Proof.
  assert (Hrun : get_pricing (lib := ascii_lib) default_settings
                   (remote_answers
                      (JDict [("status", JStr "SUCCESS");
                              ("pricing", JDict [("com", JDict [("tld", JStr "net")])])]))
                   None new_world
                 = (Return [("com", net_pricing)],
                    snd (get_pricing (lib := ascii_lib) default_settings
                           (remote_answers
                              (JDict [("status", JStr "SUCCESS");
                                      ("pricing",
                                       JDict [("com", JDict [("tld", JStr "net")])])]))
                           None new_world)))
    by reflexivity.
  split; [exact Hrun|].
  destruct (tool_get_pricing_data (lib := ascii_lib) default_settings _ None _ _ _ Hrun)
    as (resp & Htool & _ & _ & Hdata).
  exists resp. rewrite Htool. split; [reflexivity|exact Hdata].
Defined.

Lemma tool_get_domain_info_not_found_witness :
  list_domains (lib := ascii_lib) default_settings (remote_answers domains_envelope)
    new_world
  = (Return [example_net; example_com],
     snd (list_domains (lib := ascii_lib) default_settings
            (remote_answers domains_envelope) new_world))
  /\ (forall x, In x [example_net; example_com] -> Domain.domain x <> "example.org")
  /\ structured_logging (PyLib := ascii_lib) = true
  /\ exists resp,
       fst (Tools.get_domain_info (lib := ascii_lib) default_settings
              (remote_answers domains_envelope) "example.org" new_world) = Return resp
       /\ success resp = false
       /\ error resp = Some "Domain example.org not found in account".
Proof.
  assert (Hlist : list_domains (lib := ascii_lib) default_settings
                    (remote_answers domains_envelope) new_world
                  = (Return [example_net; example_com],
                     snd (list_domains (lib := ascii_lib) default_settings
                            (remote_answers domains_envelope) new_world)))
    by reflexivity.
  assert (Hnone : forall x, In x [example_net; example_com] ->
                    Domain.domain x <> "example.org").
  { intros x [<-|[<-|[]]]; discriminate. }
  assert (Hlog : structured_logging (PyLib := ascii_lib) = true) by reflexivity.
  split; [exact Hlist|]. split; [exact Hnone|]. split; [exact Hlog|].
  destruct (tool_get_domain_info_not_found (lib := ascii_lib) default_settings
              (remote_answers domains_envelope) "example.org" _ _ _ Hlist Hnone)
    as [Hstructured _].
  destruct (Hstructured Hlog) as (resp & Hrun & Hs & _ & _ & Herr).
  exists resp. rewrite Hrun. split; [reflexivity|]. split; [exact Hs|exact Herr].
Defined.
